(** * ScubaInstructionAgent: a shallow embedding of [app.py]

    [app.py] is a Streamlit script: it reads two API keys and a CSV of diving
    spots, asks Open-Meteo for marine and atmospheric forecasts, merges them
    into a pandas table, asks Tavily and Gemini for a marine-life summary and
    renders everything.

    The embedding follows the script top to bottom.  Python exceptions and
    [st.stop()] are explicit outcomes ([result]); the widgets written to the
    page are a log threaded through a small state monad ([M]); dictionaries
    with string or integer keys are [gmap]s; pandas tables are ordered lists
    of named columns.  What the outside world answers (the secret store, the
    CSV file, the HTTP endpoints, the search and text providers, the user's
    input) is the [environment] the script runs in. *)

From Stdlib Require Import Ascii.
From stdpp Require Import base option list strings pretty gmap.

Open Scope Z_scope.
Open Scope string_scope.
Open Scope list_scope.

(** ** Python outcomes *)

(** The exception classes the script can meet.  All of them derive from
    [Exception]; [ParserError] and [EmptyDataError] are pandas' own,
    [RequestException] and [JSONDecodeError] come from [requests], and
    [ProviderError] stands for whatever the Tavily or Gemini client raises. *)
Inductive exn : Type :=
| FileNotFoundError
| KeyError (key : string)
| ValueError (msg : string)
| IndexError
| TypeError
| ParserError
| EmptyDataError
| RequestException
| JSONDecodeError
| ProviderError (msg : string).

(** [except FileNotFoundError] *)
Definition is_FileNotFoundError (e : exn) : bool :=
  match e with FileNotFoundError => true | _ => false end.

(** [except Exception]: every class above is a subclass of [Exception]. *)
Definition is_Exception (e : exn) : bool := true.

(** A library call or an expression either returns a value or raises. *)
Inductive result (A : Type) : Type :=
| Ok (a : A)
| Raise (e : exn).
Arguments Ok {A} a.
Arguments Raise {A} e.

#[global] Instance result_ret : MRet result := fun _ a => Ok a.
#[global] Instance result_bind : MBind result := fun _ _ f r =>
  match r with
  | Ok a => f a
  | Raise e => Raise e
  end.

(** A statement of the script completes with a value, fails with an
    exception, or runs [st.stop()].  Streamlit implements [st.stop()] with a
    [BaseException] that no [except Exception] clause catches, hence the
    separate outcome. *)
Inductive outcome (A : Type) : Type :=
| Done (a : A)
| Failed (e : exn)
| Stopped.
Arguments Done {A} a.
Arguments Failed {A} e.
Arguments Stopped {A}.

(** [d[k]] on a dict with string keys. *)
Definition getitem {V : Type} (d : gmap string V) (k : string) : result V :=
  match d !! k with
  | Some v => Ok v
  | None => Raise (KeyError k)
  end.

(** [str(x)] for a Python [int]. *)
Definition str_int (x : Z) : string := pretty x.

(** ** The weather-code table *)

Definition WEATHER_CODE_MAP : gmap Z string :=
  list_to_map
    [ (0, "快晴"); (1, "晴れ"); (2, "一部曇り"); (3, "曇り");
      (45, "霧"); (48, "着氷性の霧");
      (51, "霧雨(軽)"); (53, "霧雨(中)"); (55, "霧雨(強)");
      (61, "雨(軽)"); (63, "雨(中)"); (65, "雨(強)");
      (80, "にわか雨(軽)"); (81, "にわか雨(中)"); (82, "にわか雨(強)") ].

(** [lambda x: WEATHER_CODE_MAP.get(x, f"不明({x})")] on an integer code. *)
Definition weather_label (x : Z) : string :=
  default ("不明(" +:+ str_int x +:+ ")") (WEATHER_CODE_MAP !! x).

(** [needle in haystack] for Python strings. *)
Definition contains (haystack needle : string) : Prop :=
  ∃ before after, haystack = before +:+ needle +:+ after.

(** ** Values *)

(** [datetime.date] *)
Record date : Type := Date { year : Z; month : Z; day : Z }.

(** A pandas [Timestamp], to the minute. *)
Record datetime : Type :=
  Datetime { dt_date : date; dt_hour : Z; dt_minute : Z }.

(** What the script takes from Python and pandas without looking inside:
    floating-point numbers (never computed with, only stored, compared as
    dictionary keys and printed) and the timestamp parser.  [pd.to_datetime]
    on a list returns an index with one timestamp per element or raises. *)
Class Platform : Type := {
  number : Type;
  number_eq_dec :: EqDecision number;
  str_number : number → string;
  to_datetime : list string → option (list datetime);
  to_datetime_length ts ds :
    to_datetime ts = Some ds → length ds = length ts;
  to_datetime_nil : to_datetime [] = Some [];
}.

Section Script.
Context `{Platform}.

(** An entry of a metric array in the JSON payload: a number or [null]. *)
Definition sample : Type := option number.

(** A cell of the spot table as [pd.read_csv] delivers it. *)
Inductive cell : Type :=
| Text (s : string)
| Number (x : number)
| NaN.

#[global] Instance cell_eq_dec : EqDecision cell.
Proof. solve_decision. Defined.

Definition str_cell (c : cell) : string :=
  match c with
  | Text s => s
  | Number x => str_number x
  | NaN => "nan"
  end.

(** ** pandas tables *)

(** A column of the forecast table, by element type. *)
Inductive series : Type :=
| Datetimes (l : list datetime)
| Samples (l : list sample)
| Ints (l : list Z)
| Strs (l : list string).

(** One entry of a column. *)
Inductive value : Type :=
| VDatetime (t : datetime)
| VSample (s : sample)
| VInt (z : Z)
| VStr (s : string).

(** A [DataFrame] with the default integer index: its named columns in
    insertion order. *)
Definition DataFrame : Type := list (string * series).

(** A row, as [iloc] returns it: one value per column. *)
Definition row : Type := list (string * value).

Definition series_length (s : series) : nat :=
  match s with
  | Datetimes l => length l
  | Samples l => length l
  | Ints l => length l
  | Strs l => length l
  end.

Definition series_lookup (s : series) (i : nat) : option value :=
  match s with
  | Datetimes l => VDatetime <$> l !! i
  | Samples l => VSample <$> l !! i
  | Ints l => VInt <$> l !! i
  | Strs l => VStr <$> l !! i
  end.

(** Keep the entries whose mask bit is set. *)
Fixpoint select {A : Type} (mask : list bool) (l : list A) : list A :=
  match mask, l with
  | b :: mask', x :: l' => if b then x :: select mask' l' else select mask' l'
  | _, _ => []
  end.

Definition series_select (mask : list bool) (s : series) : series :=
  match s with
  | Datetimes l => Datetimes (select mask l)
  | Samples l => Samples (select mask l)
  | Ints l => Ints (select mask l)
  | Strs l => Strs (select mask l)
  end.

(** [len(df)] *)
Definition len (df : DataFrame) : nat :=
  match df with
  | [] => 0%nat
  | (_, s) :: _ => series_length s
  end.

(** [df.empty]: no rows or no columns. *)
Definition df_empty (df : DataFrame) : bool :=
  match df with
  | [] => true
  | _ => bool_decide (len df = 0%nat)
  end.

(** [pd.DataFrame({...})] on a dict of lists: the lists must all have one
    length, otherwise pandas raises [ValueError]. *)
Definition same_length (cols : list (string * series)) : bool :=
  match cols with
  | [] => true
  | (_, s) :: rest =>
      forallb (λ c, bool_decide (series_length c.2 = series_length s)) rest
  end.

Definition pd_DataFrame (cols : list (string * series)) : result DataFrame :=
  if same_length cols then Ok cols
  else Raise (ValueError "All arrays must be of the same length").

(** [pd.to_datetime(times)] *)
Definition pd_to_datetime (times : list string) : result (list datetime) :=
  match to_datetime times with
  | Some ds => Ok ds
  | None => Raise (ValueError "time data does not match format")
  end.

(** [df[name]] *)
Fixpoint column (df : DataFrame) (name : string) : result series :=
  match df with
  | [] => Raise (KeyError name)
  | (n, s) :: df' => if decide (n = name) then Ok s else column df' name
  end.

(** [df[name] = s] for a column of the table's length: replaces the column
    of that name or appends a new one. *)
Fixpoint setitem (df : DataFrame) (name : string) (s : series) : DataFrame :=
  match df with
  | [] => [(name, s)]
  | (n, c) :: df' =>
      if decide (n = name) then (n, s) :: df' else (n, c) :: setitem df' name s
  end.

(** [df[name].map(f)] for a function on integer codes.  The model types
    [Series.map] for integer columns only. *)
Definition map_codes (f : Z → string) (s : series) : result series :=
  match s with
  | Ints l => Ok (Strs (f <$> l))
  | _ => Raise TypeError
  end.

(** [df[name].dt.hour == h] *)
Definition hour_is (h : Z) (s : series) : result (list bool) :=
  match s with
  | Datetimes l => Ok ((λ t, bool_decide (dt_hour t = h)) <$> l)
  | _ => Raise TypeError
  end.

(** [df[mask]] *)
Definition df_select (mask : list bool) (df : DataFrame) : DataFrame :=
  (λ c, (c.1, series_select mask c.2)) <$> df.

(** The values of row [i], when every column has one. *)
Definition row_at (df : DataFrame) (i : nat) : option row :=
  mapM (λ c, (λ v, (c.1, v)) <$> series_lookup c.2 i) df.

(** [df.iloc[i]] for [i >= 0] *)
Definition iloc (df : DataFrame) (i : nat) : result row :=
  if decide (i < len df)%nat then
    match row_at df i with
    | Some r => Ok r
    | None => Raise IndexError
    end
  else Raise IndexError.

(** [r[name]] on a row *)
Fixpoint field (r : row) (name : string) : result value :=
  match r with
  | [] => Raise (KeyError name)
  | (n, v) :: r' => if decide (n = name) then Ok v else field r' name
  end.

(** ** The spot table *)

#[global] Instance cell_inhabited : Inhabited cell := populate NaN.

(** The [DataFrame] that [pd.read_csv] returns: named columns of cells, all
    of one length. *)
Definition spot_table : Type := list (string * list cell).

(** A table after [set_index]: the index column and the remaining ones. *)
Record indexed_table : Type :=
  IndexedTable { index : list cell; data : list (string * list cell) }.

(** [DIVING_SPOTS]: a dict from the spot's name to the dict of its other
    columns, in insertion order; the loader only builds it with distinct
    keys. *)
Definition spots : Type := list (cell * list (string * cell)).

Fixpoint take_column (t : spot_table) (name : string)
  : option (list cell * spot_table) :=
  match t with
  | [] => None
  | (n, c) :: t' =>
      if decide (n = name) then Some (c, t')
      else '(found, others) ← take_column t' name; Some (found, (n, c) :: others)
  end.

(** [df.set_index(name)] *)
Definition set_index (t : spot_table) (name : string) : result indexed_table :=
  match take_column t name with
  | Some (idx, others) => Ok (IndexedTable idx others)
  | None => Raise (KeyError ("None of ['" +:+ name +:+ "'] are in the columns"))
  end.

(** [df.index.is_unique] *)
Definition is_unique (idx : list cell) : bool := bool_decide (NoDup idx).

(** [df.to_dict("index")]: pandas refuses an index with repeated labels. *)
Definition to_dict_index (t : indexed_table) : result spots :=
  if is_unique (index t) then
    Ok (imap (λ i name, (name, (λ c, (c.1, c.2 !!! i)) <$> data t)) (index t))
  else Raise (ValueError "DataFrame index must be unique for orient='index'.").

(** [d[k]] on a dict keyed by cells; [k] is [None] when the select box had
    nothing to offer. *)
Fixpoint spots_getitem (d : spots) (k : option cell)
  : result (list (string * cell)) :=
  match d with
  | [] => Raise (KeyError (from_option str_cell "None" k))
  | (n, v) :: d' => if decide (Some n = k) then Ok v else spots_getitem d' k
  end.

(** [coords[k]] *)
Fixpoint coords_getitem (coords : list (string * cell)) (k : string)
  : result cell :=
  match coords with
  | [] => Raise (KeyError k)
  | (n, v) :: coords' => if decide (n = k) then Ok v else coords_getitem coords' k
  end.

(** ** The page and the script monad *)

(** An f-string, as its literal pieces and the objects interpolated between
    them (not formatted). *)
Inductive fragment : Type :=
| Lit (s : string)
| Cell (c : cell)
| Val (v : value)
| Day (d : date)
| Int (z : Z)
| Exn (e : exn).

Definition text : Type := list fragment.

(** The calls that write to the page, in the order the script makes them
    (layout containers, columns and tabs are not recorded). *)
Inductive widget : Type :=
| PageConfig
| ErrorBox (msg : text)
| WarningBox (msg : text)
| Title (s : string)
| Markdown (s : string)
| Subheader (s : string)
| Header (s : text)
| Selectbox (label : string) (options : list cell)
| DateInput (label : string) (default : date)
| Button (label : string)
| Spinner (s : text)
| Metric (label : string) (v : text) (delta : option text)
| LineChart (idx : string) (columns : list string) (df : DataFrame)
| Caption (s : string)
| Info (s : string).

(** The value stored under [st.session_state["display_data"]]. *)
Record display_data : Type := DisplayData {
  spot_name : option cell;
  dd_date : date;
  dd_df : option DataFrame;
  bio_info : string;
}.

(** What a run of the script changes: the page and the session state. *)
Record state : Type := State {
  page : list widget;
  session : option display_data;
}.

Definition M (A : Type) : Type := state → outcome A * state.

Definition ret {A : Type} (a : A) : M A := λ s, (Done a, s).

Definition bind {A B : Type} (m : M A) (k : A → M B) : M B := λ s,
  match m s with
  | (Done a, s') => k a s'
  | (Failed e, s') => (Failed e, s')
  | (Stopped, s') => (Stopped, s')
  end.

#[global] Instance M_ret : MRet M := @ret.
#[global] Instance M_bind : MBind M := λ A B k m, bind m k.

(** A computation without effects on the page, run inside the script. *)
Definition lift {A : Type} (r : result A) : M A := λ s,
  match r with
  | Ok a => (Done a, s)
  | Raise e => (Failed e, s)
  end.

(** [try: body / except <class> as e: handler(e)] *)
Definition try_except {A : Type} (caught : exn → bool)
    (body : M A) (handler : exn → M A) : M A := λ s,
  match body s with
  | (Failed e, s') => if caught e then handler e s' else (Failed e, s')
  | other => other
  end.

Definition show (w : widget) : M unit :=
  λ s, (Done (), State (page s ++ [w]) (session s)).

Definition st_error (msg : text) : M unit := show (ErrorBox msg).

(** [st.stop()] *)
Definition st_stop {A : Type} : M A := λ s, (Stopped, s).

Definition set_session (d : display_data) : M unit :=
  λ s, (Done (), State (page s) (Some d)).

Definition get_session : M (option display_data) := λ s, (Done (session s), s).

End Script.

Section App.
Context `{Platform}.

(** ** The outside world *)

(** [st.secrets]: [None] when there is no [secrets.toml]; otherwise its
    sections, each a dict of strings. *)
Definition secret_store : Type := option (gmap string (gmap string string)).

(** The query parameters of an Open-Meteo request. *)
Record params : Type := Params {
  latitude : cell;
  longitude : cell;
  start_date : date;
  end_date : date;
  hourly : list string;
  timezone : string;
}.

(** The [hourly] object of the marine response: each array is present or
    not.  Only the keys the script reads are kept.  The payloads are typed
    as Open-Meteo documents them: timestamps are strings, weather codes are
    integers, every other metric is a number or [null]; a body that is not
    an object of this shape is outside the model. *)
Record marine_hourly : Type := MarineHourly {
  time : option (list string);
  wave_height : option (list sample);
  wave_direction : option (list sample);
  wave_period : option (list sample);
  swell_wave_height : option (list sample);
}.

(** The [hourly] object of the forecast response. *)
Record weather_hourly : Type := WeatherHourly {
  temperature_2m : option (list sample);
  precipitation : option (list sample);
  weather_code : option (list Z);
  wind_speed_10m : option (list sample);
  wind_direction_10m : option (list sample);
}.

(** The decoded JSON bodies: objects that may or may not have an [hourly]
    key (an Open-Meteo error body has none). *)
Record marine_json : Type := MarineJson { marine_hourly_of : option marine_hourly }.
Record weather_json : Type := WeatherJson { weather_hourly_of : option weather_hourly }.

(** [requests.get(url, params=...).json()] for the two endpoints: the
    decoded body, or the exception of the transport or of the decoder. *)
Record upstream : Type := Upstream {
  marine_api : params → result marine_json;
  forecast_api : params → result weather_json;
}.

(** One Tavily hit and the whole answer, as dicts whose keys may be absent. *)
Record search_hit : Type := SearchHit { content : option string }.
Record search_response : Type := SearchResponse { results : option (list search_hit) }.

(** A Gemini response: reading [.text] can itself raise. *)
Record generation : Type := Generation { response_text : result string }.

Record environment : Type := Environment {
  secrets : secret_store;
  read_csv : result spot_table;
  open_meteo : upstream;
  tavily_search : string → result search_response;
  generate_content : string → result generation;
  today : date;
  chosen_spot : nat;
  chosen_date : date;
  start_btn : bool;
}.

(** ** Dates *)

Definition is_leap (y : Z) : bool :=
  bool_decide (y `mod` 4 = 0 ∧ (y `mod` 100 ≠ 0 ∨ y `mod` 400 = 0)).

Definition days_before_month (y m : Z) : Z :=
  nth (Z.to_nat (m - 1)) [0; 31; 59; 90; 120; 151; 181; 212; 243; 273; 304; 334] 0
  + (if bool_decide (2 < m) && is_leap y then 1 else 0).

(** [date.toordinal()] *)
Definition toordinal (d : date) : Z :=
  let y := year d - 1 in
  y * 365 + y `div` 4 - y `div` 100 + y `div` 400
  + days_before_month (year d) (month d) + day d.

(** ** Forecast *)

Definition no_marine : marine_hourly := MarineHourly None None None None None.
Definition no_weather : weather_hourly := WeatherHourly None None None None None.

(** The [params] dict of the marine request. *)
Definition marine_params (lat lon : cell) (date : date) : params :=
  Params lat lon date date
    ["wave_height"; "wave_direction"; "wave_period";
     "swell_wave_height"; "swell_wave_direction"]
    "Asia/Tokyo".

(** The [forecast_params] dict. *)
Definition forecast_params (lat lon : cell) (date : date) : params :=
  Params lat lon date date
    ["temperature_2m"; "precipitation"; "weather_code";
     "wind_speed_10m"; "wind_direction_10m"]
    "Asia/Tokyo".

(** [hourly_marine.get('time', [])] *)
Definition times_of (marine_res : marine_json) : list string :=
  default [] (time (default no_marine (marine_hourly_of marine_res))).

(** The dict handed to [pd.DataFrame]. *)
Definition forecast_columns (index : list datetime)
    (hourly_marine : marine_hourly) (hourly_weather : weather_hourly)
  : list (string * series) :=
  [ ("time", Datetimes index);
    ("気温(°C)", Samples (default [] (temperature_2m hourly_weather)));
    ("降水量(mm)", Samples (default [] (precipitation hourly_weather)));
    ("風速(km/h)", Samples (default [] (wind_speed_10m hourly_weather)));
    ("風向(°)", Samples (default [] (wind_direction_10m hourly_weather)));
    ("天気コード", Ints (default [] (weather_code hourly_weather)));
    ("波高(m)", Samples (default [] (wave_height hourly_marine)));
    ("波向(°)", Samples (default [] (wave_direction hourly_marine)));
    ("波の強さ/周期(s)", Samples (default [] (wave_period hourly_marine)));
    ("うねり高(m)", Samples (default [] (swell_wave_height hourly_marine))) ].

Definition get_meteo_data (env : environment) (lat lon : cell) (date : date)
  : M (option DataFrame) :=
  let params := marine_params lat lon date in
  let forecast_params := forecast_params lat lon date in
  try_except is_Exception
    (marine_res ← lift (marine_api (open_meteo env) params);
     weather_res ← lift (forecast_api (open_meteo env) forecast_params);
     let hourly_marine := default no_marine (marine_hourly_of marine_res) in
     let hourly_weather := default no_weather (weather_hourly_of weather_res) in
     let times := times_of marine_res in
     index ← lift (pd_to_datetime times);
     df ← lift (pd_DataFrame (forecast_columns index hourly_marine hourly_weather));
     labels ← lift (column df "天気コード" ≫= map_codes weather_label);
     ret (Some (setitem df "天気" labels)))
    (λ e, st_error [Lit "気象データの取得に失敗しました: "; Exn e] ;;
          ret None).

(** Lines 81-101 as a function of the two decoded bodies: what
    [get_meteo_data] computes once both requests have answered. *)
Definition merge_responses (marine_res : marine_json) (weather_res : weather_json)
  : result DataFrame :=
  let hourly_marine := default no_marine (marine_hourly_of marine_res) in
  let hourly_weather := default no_weather (weather_hourly_of weather_res) in
  index ← pd_to_datetime (times_of marine_res);
  df ← pd_DataFrame (forecast_columns index hourly_marine hourly_weather);
  labels ← column df "天気コード" ≫= map_codes weather_label;
  Ok (setitem df "天気" labels).

(** The number of samples of each metric array, an absent array counting
    as empty. *)
Definition metric_lengths (marine_res : marine_json) (weather_res : weather_json)
  : list nat :=
  let hourly_marine := default no_marine (marine_hourly_of marine_res) in
  let hourly_weather := default no_weather (weather_hourly_of weather_res) in
  [ length (default [] (temperature_2m hourly_weather));
    length (default [] (precipitation hourly_weather));
    length (default [] (wind_speed_10m hourly_weather));
    length (default [] (wind_direction_10m hourly_weather));
    length (default [] (weather_code hourly_weather));
    length (default [] (wave_height hourly_marine));
    length (default [] (wave_direction hourly_marine));
    length (default [] (wave_period hourly_marine));
    length (default [] (swell_wave_height hourly_marine)) ].

(** The page after [get_meteo_data] reported the exception [e]. *)
Definition fetch_failed (s : state) (e : exn) : state :=
  State (page s ++ [ErrorBox [Lit "気象データの取得に失敗しました: "; Exn e]])
        (session s).

(** A well-formed forecast table over the time axis [index]: it has the
    [time] column and every column has one entry per timestamp. *)
Definition forecast_table (df : DataFrame) (index : list datetime) : Prop :=
  column df "time" = Ok (Datetimes index)
  ∧ Forall (λ c, series_length c.2 = length index) df.

(** The representative row in the spec's words: the first row whose hour
    is 12 when there is one, the middle row otherwise. *)
Definition representative_index (index : list datetime) : nat :=
  match list_find (λ t, dt_hour t = 12) index with
  | Some (i, _) => i
  | None => (length index / 2)%nat
  end.

(** ** Marine life *)

(** ["\n"] *)
Definition newline : string := "
".

(** [sep.join(l)] *)
Definition join (sep : string) (l : list string) : string := String.concat sep l.

(** [[res['content'] for res in hits]] *)
Fixpoint contents (hits : list search_hit) : result (list string) :=
  match hits with
  | [] => Ok []
  | hit :: hits' =>
      match content hit with
      | Some c => cs ← contents hits'; Ok (c :: cs)
      | None => Raise (KeyError "content")
      end
  end.

Definition query_of (location : string) (month : Z) : string :=
  location +:+ " ダイビング 生物 見られる魚 " +:+ str_int month +:+ "月 マクロ ワイド".

Definition prompt_of (location : string) (month : Z) (context : string) : string :=
  "
            以下の検索結果に基づいて、" +:+ location +:+ "の" +:+ str_int month +:+ "月にダイビングで見られる可能性が高い海洋生物をリストアップしてください。
            出力は以下のフォーマットのみを含むマークダウンの箇条書きにしてください。余計な前置きは不要です。

            - **生物名**: 特徴や見どころ（一言で）

            検索結果:
            " +:+ context +:+ "
            ".

(** ["\n".join([res['content'] for res in hits])] *)
Definition context_of (hits : list search_hit) : result string :=
  texts ← contents hits; Ok (join newline texts).

Definition fallback_text : string := "情報の取得に失敗しました。".

Definition search_marine_life (env : environment) (location : option cell)
    (date : date) : M string :=
  let location := from_option str_cell "None" location in
  let month := month date in
  let query := query_of location month in
  show (Spinner [Lit "🔍 '"; Lit query; Lit "' で情報を収集中..."]) ;;
  try_except is_Exception
    (search_result ← lift (tavily_search env query);
     hits ← lift (from_option Ok (Raise (KeyError "results")) (results search_result));
     context ← lift (context_of hits);
     let prompt := prompt_of location month context in
     response ← lift (generate_content env prompt);
     lift (response_text response))
    (λ e, st_error [Lit "生物情報の検索に失敗しました: "; Exn e] ;;
          ret fallback_text).

(** ** Start-up *)

(** Lines 12-17: the two API keys. *)
Definition load_secrets (env : environment) : M (string * string) :=
  try_except is_FileNotFoundError
    (lift (store ← from_option Ok (Raise FileNotFoundError) (secrets env);
           GOOGLE_API_KEY ← getitem store "general" ≫= (λ g, getitem g "GOOGLE_API_KEY");
           TAVILY_API_KEY ← getitem store "general" ≫= (λ g, getitem g "TAVILY_API_KEY");
           Ok (GOOGLE_API_KEY, TAVILY_API_KEY)))
    (λ _, st_error [Lit "secrets.tomlファイルが見つかりません。APIキーを設定してください。"] ;;
          st_stop).

(** Lines 27-31: the spot registry. *)
Definition load_spots (env : environment) : M spots :=
  try_except is_Exception
    (lift (df ← read_csv env;
           indexed ← set_index df "name";
           to_dict_index indexed))
    (λ e, st_error [Lit "スポット情報の読み込みに失敗しました: "; Exn e] ;;
          st_stop).

(** Lines 9-31.  Building the Gemini and Tavily client handles from the
    keys (lines 20-24) is not modelled: the providers are in [env]. *)
Definition startup (env : environment) : M spots :=
  show PageConfig ;;
  _ ← load_secrets env;
  load_spots env.

(** ** The page *)

(** Lines 139-154: title and input widgets; returns what the user chose.
    The select box returns the chosen option, [None] when there is none. *)
Definition inputs (env : environment) (DIVING_SPOTS : spots)
  : M (option cell * date * bool) :=
  show (Title "🤿 Scuba Diving Agent") ;;
  show (Markdown "指定した地域の気象・海況情報と、今の時期に見られる生物をお知らせします。") ;;
  show (Subheader "条件設定") ;;
  show (Selectbox "エリアを選択" DIVING_SPOTS.*1) ;;
  let selected_spot_name := DIVING_SPOTS.*1 !! chosen_spot env in
  show (DateInput "日付を選択" (today env)) ;;
  let selected_date := chosen_date env in
  (if bool_decide (toordinal selected_date < toordinal (today env) - 7)
   then show (WarningBox [Lit "⚠️ 過去のデータはOpen-Meteoの仕様により取得できない場合があります（Historical APIが必要になります）"])
   else mret ()) ;;
  show (Button "情報を取得する") ;;
  mret (selected_spot_name, selected_date, start_btn env).

(** Lines 157-170: fetch both pieces and keep them in the session. *)
Definition main_processing (env : environment) (DIVING_SPOTS : spots)
    (selected_spot_name : option cell) (selected_date : date) : M unit :=
  coords ← lift (spots_getitem DIVING_SPOTS selected_spot_name);
  lat ← lift (coords_getitem coords "lat");
  lon ← lift (coords_getitem coords "lon");
  df ← get_meteo_data env lat lon selected_date;
  bio_info ← search_marine_life env selected_spot_name selected_date;
  set_session (DisplayData selected_spot_name selected_date df bio_info).

(** Line 184: the row shown as the day's summary. *)
Definition midday_data (df : DataFrame) : result row :=
  let target_hour := 12 in
  mask ← column df "time" ≫= hour_is target_hour;
  if negb (df_empty (df_select mask df)) then iloc (df_select mask df) 0
  else iloc df (len df / 2).

(** Lines 180-206: the forecast part of the page for a table. *)
Definition display_forecast (df : DataFrame) : M unit :=
  midday_data ← lift (midday_data df);
  weather ← lift (field midday_data "天気");
  show (Metric "天気 (12:00)" [Val weather] None) ;;
  temperature ← lift (field midday_data "気温(°C)");
  show (Metric "気温 (12:00)" [Val temperature; Lit " °C"] None) ;;
  wind_speed ← lift (field midday_data "風速(km/h)");
  wind_direction ← lift (field midday_data "風向(°)");
  show (Metric "風速" [Val wind_speed; Lit " km/h"]
          (Some [Lit "向: "; Val wind_direction; Lit "°"])) ;;
  wave ← lift (field midday_data "波高(m)");
  period ← lift (field midday_data "波の強さ/周期(s)");
  show (Metric "波高" [Val wave; Lit " m"]
          (Some [Lit "周期: "; Val period; Lit "s"])) ;;
  show (Markdown "---") ;;
  show (Subheader "📊 時系列データ") ;;
  show (Markdown "#### 波の高さとうねり") ;;
  show (LineChart "time" ["波高(m)"; "うねり高(m)"] df) ;;
  show (Caption "※うねりが高いとエントリーが難しくなる可能性があります。") ;;
  show (Markdown "#### 風速と気温") ;;
  show (LineChart "time" ["風速(km/h)"; "気温(°C)"] df).

(** Lines 172-215: render what the session holds. *)
Definition display (data : display_data) : M unit :=
  show (Header [Lit "🌊 "; from_option Cell (Lit "None") (spot_name data);
                Lit " の海況・気象予報 ("; Day (dd_date data); Lit ")"]) ;;
  match dd_df data with
  | Some df => display_forecast df
  | None => mret ()
  end ;;
  show (Markdown "---") ;;
  show (Header [Lit "🐠 "; Int (month (dd_date data)); Lit "月に期待できる生物"]) ;;
  show (Markdown (bio_info data)) ;;
  show (Info "💡 Open-Meteoの予報とWeb検索結果に基づいています。現地のショップ情報も必ず確認してくださいね！").

(** The whole script, one run. *)
Definition script (env : environment) : M unit :=
  DIVING_SPOTS ← startup env;
  '(selected_spot_name, selected_date, pressed) ← inputs env DIVING_SPOTS;
  (if pressed : bool
   then main_processing env DIVING_SPOTS selected_spot_name selected_date
   else mret ()) ;;
  data ← get_session;
  match data with
  | Some data => display data
  | None => mret ()
  end.

(** A run from an empty page. *)
Definition run (env : environment) (session0 : option display_data)
  : outcome unit * state :=
  script env (State [] session0).

(** The widgets through which the user works with the page. *)
Definition interactive (w : widget) : bool :=
  match w with
  | PageConfig | ErrorBox _ => false
  | _ => true
  end.

(** A run that ended, by [st.stop()] or by an exception, before anything of
    the interactive surface was drawn. *)
Definition halted (r : outcome unit * state) : Prop :=
  r.1 ≠ Done () ∧ Forall (λ w, interactive w = false) (page r.2).

End App.

(** ** A concrete platform

    Numbers are kept as their decimal text, and timestamps are read in
    the format Open-Meteo sends, [YYYY-MM-DDTHH:MM]. *)

Definition digit (c : ascii) : option Z :=
  let n := Z.of_nat (nat_of_ascii c) in
  if bool_decide (48 ≤ n ≤ 57)%Z then Some (n - 48) else None.

Definition two_digits (a b : ascii) : option Z :=
  x ← digit a; y ← digit b; Some (10 * x + y).

Definition iso_datetime (s : string) : option datetime :=
  match String.list_ascii_of_string s with
  | [y1; y2; y3; y4; s1; m1; m2; s2; d1; d2; t; h1; h2; c; n1; n2] =>
      guard (s1 = "-"%char ∧ s2 = "-"%char ∧ t = "T"%char ∧ c = ":"%char);;
      yh ← two_digits y1 y2; yl ← two_digits y3 y4;
      mo ← two_digits m1 m2; dd ← two_digits d1 d2;
      hh ← two_digits h1 h2; mi ← two_digits n1 n2;
      guard (1 ≤ mo ≤ 12 ∧ 1 ≤ dd ≤ 31 ∧ hh < 24 ∧ mi < 60)%Z;;
      Some (Datetime (Date (100 * yh + yl) mo dd) hh mi)
  | _ => None
  end.

#[global] Program Instance iso_platform : Platform := {|
  number := string;
  str_number := id;
  to_datetime := mapM iso_datetime;
|}.
Next Obligation. intros ts ds Hm. symmetry. by eapply length_mapM. Qed.
Next Obligation. reflexivity. Qed.

(** ** The summary in the spec's words, and sample worlds *)

(** "Concatenates the textual content field of each result, in the order
    returned, separated by newlines": start from the first text and append
    a newline and the next text, one result after the other. *)
Definition newline_separated (texts : list string) : string :=
  match texts with
  | [] => ""
  | first :: rest => foldl (λ acc t, acc +:+ newline +:+ t) first rest
  end.

Section Summary.
Context `{Platform}.

(** The body of the [try] in [search_marine_life] as a function of what the
    providers answer. *)
Definition summarize (env : environment) (location : option cell) (date : date)
  : result string :=
  let location := from_option str_cell "None" location in
  search_result ← tavily_search env (query_of location (month date));
  hits ← from_option Ok (Raise (KeyError "results")) (results search_result);
  context ← context_of hits;
  response ← generate_content env (prompt_of location (month date) context);
  response_text response.

(** The page while the search runs, and after it reported [e]. *)
Definition searching (s : state) (location : option cell) (date : date) : state :=
  State (page s ++
           [Spinner [Lit "🔍 '";
                     Lit (query_of (from_option str_cell "None" location) (month date));
                     Lit "' で情報を収集中..."]])
        (session s).

Definition search_failed (s : state) (location : option cell) (date : date)
    (e : exn) : state :=
  State (page (searching s location date) ++
           [ErrorBox [Lit "生物情報の検索に失敗しました: "; Exn e]])
        (session s).

(** The page after the spot registry failed to load with [e]. *)
Definition spots_failed (s : state) (e : exn) : state :=
  State (page s ++ [ErrorBox [Lit "スポット情報の読み込みに失敗しました: "; Exn e]])
        (session s).

(** The page after the secret store was not found. *)
Definition secrets_missing (s : state) : state :=
  State (page s ++
           [ErrorBox [Lit "secrets.tomlファイルが見つかりません。APIキーを設定してください。"]])
        (session s).

End Summary.

Definition demo_secrets : secret_store :=
  Some {[ "general" :=
            {[ "GOOGLE_API_KEY" := "google-key"; "TAVILY_API_KEY" := "tavily-key" ]} ]}.

(** A secret store whose Tavily key was never filled in. *)
Definition secrets_without_tavily : secret_store :=
  Some {[ "general" := {[ "GOOGLE_API_KEY" := "google-key" ]} ]}.

Definition demo_csv : spot_table :=
  [ ("name", [Text "Spot A"; Text "Spot B"]);
    ("lat", [Number "34.0"; Number "26.2"]);
    ("lon", [Number "139.0"; Number "127.7"]) ].

(** A spot file without the [lat] column. *)
Definition csv_without_lat : spot_table :=
  [ ("name", [Text "Spot A"]); ("lon", [Number "139.0"]) ].

(** A spot file that lists one name twice. *)
Definition csv_with_duplicate : spot_table :=
  [ ("name", [Text "Spot A"; Text "Spot A"]);
    ("lat", [Number "34.0"; Number "35.0"]);
    ("lon", [Number "139.0"; Number "140.0"]) ].

Definition demo_hits : list search_hit :=
  [ SearchHit (Some "クマノミが見られます"); SearchHit (Some "ウミガメに会える季節") ].

Definition demo_answer : string := "- **クマノミ**: イソギンチャクと共生".

(** A world with the given spot file, secrets, endpoints and search hits;
    the user picks the first spot, July 15th 2024, and presses the button. *)
Definition world (store : secret_store) (csv : result spot_table)
    (marine : result marine_json) (weather : result weather_json)
    (search : result search_response) : environment :=
  Environment store csv
    (Upstream (λ _, marine) (λ _, weather))
    (λ _, search)
    (λ _, Ok (Generation (Ok demo_answer)))
    (Date 2024 7 15) 0 (Date 2024 7 15) true.

Definition marine_body (t : list string) (h d p sw : list sample) : marine_json :=
  MarineJson (Some (MarineHourly (Some t) (Some h) (Some d) (Some p) (Some sw))).

Definition weather_body (temp prec : list sample) (code : list Z)
    (ws wd : list sample) : weather_json :=
  WeatherJson (Some (WeatherHourly (Some temp) (Some prec) (Some code) (Some ws) (Some wd))).

(** Three hourly samples up to noon. *)
Definition noon_marine : marine_json :=
  marine_body ["2024-07-15T10:00"; "2024-07-15T11:00"; "2024-07-15T12:00"]
    [Some "0.4"; Some "0.5"; Some "0.6"] [Some "180"; Some "185"; Some "190"]
    [Some "6.1"; Some "6.0"; Some "5.9"] [Some "0.3"; None; Some "0.3"].

Definition noon_weather : weather_json :=
  weather_body [Some "27.1"; Some "28.0"; Some "28.4"] [Some "0.0"; Some "0.2"; Some "0.0"]
    [1; 61; 999] [Some "12.0"; Some "14.5"; Some "13.0"] [Some "90"; Some "95"; Some "100"].

(** Three samples before dawn: no row at noon. *)
Definition night_marine : marine_json :=
  marine_body ["2024-07-15T00:00"; "2024-07-15T01:00"; "2024-07-15T02:00"]
    [Some "0.4"; Some "0.5"; Some "0.6"] [Some "180"; Some "185"; Some "190"]
    [Some "6.1"; Some "6.0"; Some "5.9"] [Some "0.3"; None; Some "0.3"].

(** A marine body whose wave heights stop one sample short and whose swell
    heights are absent. *)
Definition ragged_marine : marine_json :=
  MarineJson (Some (MarineHourly
    (Some ["2024-07-15T10:00"; "2024-07-15T11:00"; "2024-07-15T12:00"])
    (Some [Some "0.4"; Some "0.5"]) (Some [Some "180"; Some "185"; Some "190"])
    (Some [Some "6.1"; Some "6.0"; Some "5.9"]) None)).

(** A marine body with an empty time axis and empty arrays. *)
Definition empty_marine : marine_json := marine_body [] [] [] [] [].

Definition empty_weather : weather_json := weather_body [] [] [] [] [].

(** The error body Open-Meteo sends: an object without [hourly]. *)
Definition no_hourly_marine : marine_json := MarineJson None.
Definition no_hourly_weather : weather_json := WeatherJson None.

Definition demo_world (marine : marine_json) (weather : weather_json) : environment :=
  world demo_secrets (Ok demo_csv) (Ok marine) (Ok weather)
        (Ok (SearchResponse (Some demo_hits))).

Definition demo_lat : cell := Number "34.0".
Definition demo_lon : cell := Number "139.0".
Definition demo_date : date := Date 2024 7 15.
Definition blank : state := State [] None.

(** The table [merge_responses] builds from two bodies and its time axis. *)
Definition table_of (marine : marine_json) (weather : weather_json) : DataFrame :=
  match merge_responses marine weather with
  | Ok df => df
  | Raise _ => []
  end.

Definition axis_of (marine : marine_json) : list datetime :=
  default [] (to_datetime (times_of marine)).

Definition noon_table : DataFrame := table_of noon_marine noon_weather.
Definition night_table : DataFrame := table_of night_marine noon_weather.

(** Worlds in which one piece is broken. *)
Definition world_without_spot_file : environment :=
  world demo_secrets (Raise FileNotFoundError) (Ok noon_marine) (Ok noon_weather)
        (Ok (SearchResponse (Some demo_hits))).

Definition world_without_lat : environment :=
  world demo_secrets (Ok csv_without_lat) (Ok noon_marine) (Ok noon_weather)
        (Ok (SearchResponse (Some demo_hits))).

Definition world_with_duplicate : environment :=
  world demo_secrets (Ok csv_with_duplicate) (Ok noon_marine) (Ok noon_weather)
        (Ok (SearchResponse (Some demo_hits))).

Definition world_without_secrets : environment :=
  world None (Ok demo_csv) (Ok noon_marine) (Ok noon_weather)
        (Ok (SearchResponse (Some demo_hits))).

Definition world_without_tavily_key : environment :=
  world secrets_without_tavily (Ok demo_csv) (Ok noon_marine) (Ok noon_weather)
        (Ok (SearchResponse (Some demo_hits))).

Definition world_search_down : environment :=
  world demo_secrets (Ok demo_csv) (Ok noon_marine) (Ok noon_weather)
        (Raise (ProviderError "timeout")).

Definition world_no_hits : environment :=
  world demo_secrets (Ok demo_csv) (Ok noon_marine) (Ok noon_weather)
        (Ok (SearchResponse (Some []))).

(** ** What the page holds after each part of the script *)

Section Pages.
Context `{Platform}.

(** The widgets [inputs] draws, in order. *)
Definition input_widgets (env : environment) (DIVING_SPOTS : spots) : list widget :=
  [ Title "🤿 Scuba Diving Agent";
    Markdown "指定した地域の気象・海況情報と、今の時期に見られる生物をお知らせします。";
    Subheader "条件設定";
    Selectbox "エリアを選択" DIVING_SPOTS.*1;
    DateInput "日付を選択" (today env) ]
  ++ (if bool_decide (toordinal (chosen_date env) < toordinal (today env) - 7)
      then [WarningBox [Lit "⚠️ 過去のデータはOpen-Meteoの仕様により取得できない場合があります（Historical APIが必要になります）"]]
      else [])
  ++ [ Button "情報を取得する" ].

(** The widgets [display_forecast] draws for the values of the midday row. *)
Definition forecast_widgets (df : DataFrame)
    (weather temperature wind_speed wind_direction wave period : value)
  : list widget :=
  [ Metric "天気 (12:00)" [Val weather] None;
    Metric "気温 (12:00)" [Val temperature; Lit " °C"] None;
    Metric "風速" [Val wind_speed; Lit " km/h"]
      (Some [Lit "向: "; Val wind_direction; Lit "°"]);
    Metric "波高" [Val wave; Lit " m"]
      (Some [Lit "周期: "; Val period; Lit "s"]);
    Markdown "---";
    Subheader "📊 時系列データ";
    Markdown "#### 波の高さとうねり";
    LineChart "time" ["波高(m)"; "うねり高(m)"] df;
    Caption "※うねりが高いとエントリーが難しくなる可能性があります。";
    Markdown "#### 風速と気温";
    LineChart "time" ["風速(km/h)"; "気温(°C)"] df ].

(** The header [display] starts with. *)
Definition forecast_header (data : display_data) : widget :=
  Header [Lit "🌊 "; from_option Cell (Lit "None") (spot_name data);
          Lit " の海況・気象予報 ("; Day (dd_date data); Lit ")"].

(** The marine-life part [display] ends with. *)
Definition bio_widgets (data : display_data) : list widget :=
  [ Markdown "---";
    Header [Lit "🐠 "; Int (month (dd_date data)); Lit "月に期待できる生物"];
    Markdown (bio_info data);
    Info "💡 Open-Meteoの予報とWeb検索結果に基づいています。現地のショップ情報も必ず確認してくださいね！" ].

(** The state with more widgets on the page. *)
Definition drawn (s : state) (ws : list widget) : state :=
  State (page s ++ ws) (session s).

(** The table [get_meteo_data] returns when everything lines up. *)
Definition merged_table (index : list datetime) (marine_res : marine_json)
    (weather_res : weather_json) : DataFrame :=
  forecast_columns index
    (default no_marine (marine_hourly_of marine_res))
    (default no_weather (weather_hourly_of weather_res))
  ++ [("天気", Strs (weather_label <$>
         default [] (weather_code
           (default no_weather (weather_hourly_of weather_res)))))].

(** A computation that leaves the session alone and only adds widgets to
    the page. *)
Definition only_draws {A : Type} (m : M A) : Prop :=
  ∀ s o s', m s = (o, s') → session s' = session s ∧ ∃ ws, page s' = page s ++ ws.

(** The body of the [try] in [get_meteo_data] as a function of what the
    endpoints answer. *)
Definition fetched (env : environment) (lat lon : cell) (date : date)
  : result DataFrame :=
  marine_res ← marine_api (open_meteo env) (marine_params lat lon date);
  weather_res ← forecast_api (open_meteo env) (forecast_params lat lon date);
  merge_responses marine_res weather_res.

(** What [get_meteo_data] hands back and leaves on the page. *)
Definition fetch_outcome (env : environment) (lat lon : cell) (date : date)
    (s : state) : option DataFrame * state :=
  match fetched env lat lon date with
  | Ok df => (Some df, s)
  | Raise e => (None, fetch_failed s e)
  end.

(** What [search_marine_life] hands back and leaves on the page. *)
Definition summary_outcome (env : environment) (location : option cell)
    (date : date) (s : state) : string * state :=
  match summarize env location date with
  | Ok text => (text, searching s location date)
  | Raise e => (fallback_text, search_failed s location date e)
  end.

(** Lines 139-215: the script after start-up. *)
Definition after_startup (env : environment) (DIVING_SPOTS : spots) : M unit :=
  '(selected_spot_name, selected_date, pressed) ← inputs env DIVING_SPOTS;
  (if pressed : bool
   then main_processing env DIVING_SPOTS selected_spot_name selected_date
   else mret ()) ;;
  data ← get_session;
  match data with
  | Some data => display data
  | None => mret ()
  end.

End Pages.

(** A spot file with its header line only. *)
Definition csv_header_only : spot_table :=
  [ ("name", []); ("lat", []); ("lon", []) ].

Definition world_header_only : environment :=
  world demo_secrets (Ok csv_header_only) (Ok noon_marine) (Ok noon_weather)
        (Ok (SearchResponse (Some demo_hits))).

(** Worlds in which a request fails or answers out of shape. *)
Definition world_marine_down : environment :=
  world demo_secrets (Ok demo_csv) (Raise RequestException) (Ok noon_weather)
        (Ok (SearchResponse (Some demo_hits))).

Definition world_forecast_down : environment :=
  world demo_secrets (Ok demo_csv) (Ok noon_marine) (Raise JSONDecodeError)
        (Ok (SearchResponse (Some demo_hits))).

Definition world_search_without_results : environment :=
  world demo_secrets (Ok demo_csv) (Ok noon_marine) (Ok noon_weather)
        (Ok (SearchResponse None)).

Definition world_hit_without_content : environment :=
  world demo_secrets (Ok demo_csv) (Ok noon_marine) (Ok noon_weather)
        (Ok (SearchResponse (Some [SearchHit (Some "クマノミが見られます"); SearchHit None]))).

(** The table of [demo_csv] after [set_index("name")]. *)
Definition demo_names : list cell := [Text "Spot A"; Text "Spot B"].
Definition demo_others : spot_table :=
  [ ("lat", [Number "34.0"; Number "26.2"]);
    ("lon", [Number "139.0"; Number "127.7"]) ].

(** The registry [load_spots] builds from [demo_csv]. *)
Definition demo_spots : spots :=
  [ (Text "Spot A", [("lat", Number "34.0"); ("lon", Number "139.0")]);
    (Text "Spot B", [("lat", Number "26.2"); ("lon", Number "127.7")]) ].

(** What an earlier run left in the session. *)
Definition stored_data : display_data :=
  DisplayData (Some (Text "Spot B")) (Date 2024 7 1) (Some noon_table) demo_answer.

(** The user has not pressed the button; the endpoints are down. *)
Definition world_idle : environment :=
  Environment demo_secrets (Ok demo_csv)
    (Upstream (λ _, Raise RequestException) (λ _, Raise RequestException))
    (λ _, Raise (ProviderError "down"))
    (λ _, Raise (ProviderError "down"))
    (Date 2024 7 15) 0 (Date 2024 7 15) false.

(** The same, with every provider answering. *)
Definition world_idle_up : environment :=
  Environment demo_secrets (Ok demo_csv)
    (Upstream (λ _, Ok noon_marine) (λ _, Ok noon_weather))
    (λ _, Ok (SearchResponse (Some demo_hits)))
    (λ _, Ok (Generation (Ok demo_answer)))
    (Date 2024 7 15) 0 (Date 2024 7 15) false.

(** * Properties *)

Ltac result_step := cbv beta iota delta [mbind result_bind mret result_ret].

(** ** Weather codes *)

Lemma WEATHER_CODE_MAP_labels x label :
  WEATHER_CODE_MAP !! x = Some label → label ≠ "".
Proof.
  intros Hx. apply elem_of_list_to_map_2 in Hx.
  repeat (apply elem_of_cons in Hx as [[= -> ->]|Hx]; [done|]).
  by apply elem_of_nil in Hx.
Qed.

Lemma weather_label_unmapped x :
  WEATHER_CODE_MAP !! x = None → weather_label x = "不明(" +:+ str_int x +:+ ")".
Proof. unfold weather_label. by intros ->. Qed.

(** C4. The weather-code translation is total and never fails: every
    integer code gets a non-empty label; a code that is not a key of
    [WEATHER_CODE_MAP] gets a label that contains the code's decimal text;
    code 61 gets the light-rain label and the label of code 999 contains
    "999". *)
Theorem weather_label_total (x : Z) :
  weather_label x ≠ ""
  ∧ (WEATHER_CODE_MAP !! x = None → contains (weather_label x) (str_int x))
  ∧ weather_label 61 = "雨(軽)"
  ∧ contains (weather_label 999) "999".
Proof.
  split; [|split; [|split]].
  - unfold weather_label.
    destruct (WEATHER_CODE_MAP !! x) as [label|] eqn:Hx; simpl.
    + by eapply WEATHER_CODE_MAP_labels.
    + done.
  - intros Hx. rewrite (weather_label_unmapped x Hx). by exists "不明(", ")".
  - reflexivity.
  - by exists "不明(", ")".
Qed.

Lemma weather_label_total_witness :
  WEATHER_CODE_MAP !! 1000 = None ∧ contains (weather_label 1000) "1000".
Proof.
  split; [reflexivity|].
  apply (proj1 (proj2 (weather_label_total 1000))). reflexivity.
Defined.

(** ** Forecast *)

Section ForecastFacts.
Context `{Platform}.

Lemma same_length_Forall n s rest :
  same_length ((n, s) :: rest) = true ↔
  Forall (λ c, series_length c.2 = series_length s) rest.
Proof.
  unfold same_length. rewrite forallb_forall, Forall_forall.
  split; intros Hall c Hc.
  - apply list_elem_of_In, Hall in Hc. by apply bool_decide_eq_true in Hc.
  - apply bool_decide_eq_true, Hall, list_elem_of_In, Hc.
Qed.

(** The table construction succeeds exactly when every metric array has as
    many samples as the parsed time axis. *)
Lemma same_length_forecast_columns index marine_res weather_res :
  same_length (forecast_columns index
      (default no_marine (marine_hourly_of marine_res))
      (default no_weather (weather_hourly_of weather_res))) = true
  ↔ Forall (λ n, n = length index) (metric_lengths marine_res weather_res).
Proof.
  unfold forecast_columns at 1. rewrite same_length_Forall. simpl.
  unfold metric_lengths. rewrite !Forall_cons, !Forall_nil. simpl. tauto.
Qed.

(** What [merge_responses] returns when it returns. *)
Lemma merge_Ok marine_res weather_res df :
  merge_responses marine_res weather_res = Ok df →
  ∃ index,
    to_datetime (times_of marine_res) = Some index
    ∧ Forall (λ n, n = length (times_of marine_res))
             (metric_lengths marine_res weather_res)
    ∧ df = forecast_columns index
             (default no_marine (marine_hourly_of marine_res))
             (default no_weather (weather_hourly_of weather_res))
           ++ [("天気", Strs (weather_label <$>
                 default [] (weather_code
                   (default no_weather (weather_hourly_of weather_res)))))].
Proof.
  unfold merge_responses, pd_to_datetime, pd_DataFrame.
  destruct (to_datetime _) as [index|] eqn:Ht; [|done]. result_step.
  destruct (same_length _) eqn:Hlen; [|done]. result_step.
  intros [= <-]. exists index. split; [done|].
  apply same_length_forecast_columns in Hlen.
  by rewrite <-(to_datetime_length _ _ Ht).
Qed.

(** When [merge_responses] raises, it raises [ValueError]. *)
Lemma merge_Raise marine_res weather_res e :
  merge_responses marine_res weather_res = Raise e → ∃ msg, e = ValueError msg.
Proof.
  unfold merge_responses, pd_to_datetime, pd_DataFrame.
  destruct (to_datetime _) as [index|]; result_step; [|intros [= <-]; by eexists].
  destruct (same_length _); result_step; [done|intros [= <-]; by eexists].
Qed.

(** A table that [merge_responses] returns is a forecast table over the
    parsed time axis. *)
Lemma merge_forecast_table marine_res weather_res df :
  merge_responses marine_res weather_res = Ok df →
  ∃ index, to_datetime (times_of marine_res) = Some index
           ∧ length index = length (times_of marine_res)
           ∧ forecast_table df index.
Proof.
  intros Hmerge. apply merge_Ok in Hmerge as (index & Ht & Hall & ->).
  pose proof (to_datetime_length _ _ Ht) as Hlen.
  exists index. split; [done|]. split; [done|]. split; [reflexivity|].
  unfold metric_lengths in Hall. rewrite !Forall_cons in Hall.
  rewrite Hlen.
  repeat constructor; simpl; try rewrite length_fmap; tauto.
Qed.

Lemma merge_ragged marine_res weather_res k n :
  metric_lengths marine_res weather_res !! k = Some n →
  n ≠ length (times_of marine_res) →
  ∃ msg, merge_responses marine_res weather_res = Raise (ValueError msg).
Proof.
  intros Hn Hne.
  destruct (merge_responses marine_res weather_res) as [df|e] eqn:Hmerge.
  - apply merge_Ok in Hmerge as (index & _ & Hall & _).
    by apply (Forall_lookup_1 _ _ _ _ Hall) in Hn.
  - apply merge_Raise in Hmerge as [msg ->]. by exists msg.
Qed.

Lemma merge_empty marine_res weather_res :
  times_of marine_res = [] →
  Forall (λ n, n = 0%nat) (metric_lengths marine_res weather_res) →
  ∃ df, merge_responses marine_res weather_res = Ok df
        ∧ Forall (λ c, series_length c.2 = 0%nat) df.
Proof.
  intros Ht Hall. unfold merge_responses, pd_to_datetime, pd_DataFrame.
  rewrite Ht, to_datetime_nil. result_step.
  assert (same_length (forecast_columns []
      (default no_marine (marine_hourly_of marine_res))
      (default no_weather (weather_hourly_of weather_res))) = true) as ->.
  { by apply same_length_forecast_columns. }
  result_step. eexists. split; [reflexivity|].
  unfold metric_lengths in Hall. rewrite !Forall_cons in Hall.
  repeat constructor; simpl; try rewrite length_fmap; tauto.
Qed.

(** [get_meteo_data] is [merge_responses] behind the two requests and the
    handler: a raised exception becomes the error box and [None]. *)
Lemma get_meteo_data_merge env lat lon date s :
  get_meteo_data env lat lon date s =
  match
    marine_res ← marine_api (open_meteo env) (marine_params lat lon date);
    weather_res ← forecast_api (open_meteo env) (forecast_params lat lon date);
    merge_responses marine_res weather_res
  with
  | Ok df => (Done (Some df), s)
  | Raise e => (Done None, fetch_failed s e)
  end.
Proof.
  unfold get_meteo_data, try_except, merge_responses.
  unfold mbind at 1 2 3 4 5 6, M_bind, bind, lift.
  destruct (marine_api _ _) as [marine_res|e]; [|reflexivity]. result_step.
  destruct (forecast_api _ _) as [weather_res|e]; [|reflexivity]. result_step.
  destruct (pd_to_datetime _) as [index|e]; [|reflexivity]. result_step.
  destruct (pd_DataFrame _) as [df|e]; [|reflexivity]. result_step.
  destruct (column df _) as [c|e]; [|reflexivity].
  destruct (map_codes _ c) as [labels|e]; reflexivity.
Qed.

Lemma forecast_table_len df index :
  forecast_table df index → len df = length index ∧ df ≠ [].
Proof.
  intros [Hcol Hall]. destruct df as [|[n c] df]; [done|].
  split; [|done]. by apply Forall_inv in Hall.
Qed.

(** C1. Whatever the two endpoints answer, [get_meteo_data] either returns
    a table whose time column is the parsed [time] array of the marine
    response and whose row count (and the length of every column) is the
    length of that array, leaving the page untouched, or it reports the
    exception in an error box and returns [None]. *)
Theorem get_meteo_data_row_count env lat lon date s :
  (∃ df marine_res index,
      get_meteo_data env lat lon date s = (Done (Some df), s)
      ∧ marine_api (open_meteo env) (marine_params lat lon date) = Ok marine_res
      ∧ to_datetime (times_of marine_res) = Some index
      ∧ column df "time" = Ok (Datetimes index)
      ∧ len df = length (times_of marine_res)
      ∧ Forall (λ c, series_length c.2 = length (times_of marine_res)) df)
  ∨ (∃ e, get_meteo_data env lat lon date s = (Done None, fetch_failed s e)).
Proof.
  rewrite get_meteo_data_merge.
  destruct (marine_api _ _) as [marine_res|e] eqn:Hm; [|right; by exists e].
  destruct (forecast_api _ _) as [weather_res|e]; [|right; by exists e].
  result_step.
  destruct (merge_responses _ _) as [df|e] eqn:Hmerge; [|right; by exists e].
  left. apply merge_forecast_table in Hmerge as (index & Ht & Hlen & Hdf).
  pose proof (forecast_table_len _ _ Hdf) as [Hrows _].
  destruct Hdf as [Hcol Hall].
  exists df, marine_res, index. rewrite <-Hlen. done.
Qed.

(** C2, as the code has it.  When both endpoints answer and some metric
    array (an absent one counting as empty) has a number of samples other
    than the length of the marine time axis, [get_meteo_data] builds no
    table: the [ValueError] of the table construction is caught, shown
    in an error box, and [None] is returned.  No exception reaches the
    caller. *)
Theorem get_meteo_data_ragged_fails env lat lon date s marine_res weather_res k n :
  marine_api (open_meteo env) (marine_params lat lon date) = Ok marine_res →
  forecast_api (open_meteo env) (forecast_params lat lon date) = Ok weather_res →
  metric_lengths marine_res weather_res !! k = Some n →
  n ≠ length (times_of marine_res) →
  ∃ msg, get_meteo_data env lat lon date s
         = (Done None, fetch_failed s (ValueError msg)).
Proof.
  intros Hm Hw Hk Hn. rewrite get_meteo_data_merge, Hm, Hw. result_step.
  destruct (merge_ragged _ _ _ _ Hk Hn) as [msg ->]. by exists msg.
Qed.

(** C3, as the code has it.  When both endpoints answer and the marine
    time axis is empty: if every metric array is absent or empty,
    [get_meteo_data] returns a table with no rows and the page is
    untouched; if some metric array has samples, it shows the error box
    and returns [None]. *)
Theorem get_meteo_data_empty_axis env lat lon date s marine_res weather_res :
  marine_api (open_meteo env) (marine_params lat lon date) = Ok marine_res →
  forecast_api (open_meteo env) (forecast_params lat lon date) = Ok weather_res →
  times_of marine_res = [] →
  (Forall (λ n, n = 0%nat) (metric_lengths marine_res weather_res) →
     ∃ df, get_meteo_data env lat lon date s = (Done (Some df), s)
           ∧ len df = 0%nat
           ∧ Forall (λ c, series_length c.2 = 0%nat) df)
  ∧ (∀ k n, metric_lengths marine_res weather_res !! k = Some n → n ≠ 0%nat →
       ∃ msg, get_meteo_data env lat lon date s
              = (Done None, fetch_failed s (ValueError msg))).
Proof.
  intros Hm Hw Ht. rewrite get_meteo_data_merge, Hm, Hw. result_step. split.
  - intros Hall. destruct (merge_empty _ _ Ht Hall) as (df & -> & Hdf).
    exists df. split; [done|]. split; [|done].
    destruct df as [|[c l] df]; [done|]. by apply Forall_inv in Hdf.
  - intros k n Hk Hn.
    destruct (merge_ragged marine_res weather_res k n Hk) as [msg ->].
    + by rewrite Ht.
    + by exists msg.
Qed.

End ForecastFacts.

(** ** The representative row *)

Section MiddayFacts.
Context `{Platform}.

(** Selecting by the mask of a predicate: nothing is kept when no element
    satisfies it, and otherwise the first kept entry is the one at the
    position of the first element that does. *)
Lemma select_find {A B : Type} (P : A → Prop) `{!∀ x, Decision (P x)}
    (keys : list A) (l : list B) :
  length l = length keys →
  match list_find P keys with
  | Some (i, _) => select ((λ x, bool_decide (P x)) <$> keys) l !! 0%nat = l !! i
                   ∧ l !! i ≠ None
  | None => select ((λ x, bool_decide (P x)) <$> keys) l = []
  end.
Proof.
  revert l. induction keys as [|k keys IH]; intros [|x l] Hlen; try done.
  simpl in Hlen. injection Hlen as Hlen. specialize (IH l Hlen).
  cbn [list_find fmap list_fmap select]. destruct (decide (P k)) as [Hk|Hk].
  - rewrite bool_decide_eq_true_2 by done. done.
  - rewrite bool_decide_eq_false_2 by done.
    destruct (list_find P keys) as [[i t]|]; simpl; done.
Qed.

Lemma row_at_is_Some (df : DataFrame) i :
  Forall (λ c, (i < series_length c.2)%nat) df → is_Some (row_at df i).
Proof.
  intros Hall. apply mapM_is_Some, Forall_forall. intros [n c] Hin.
  rewrite Forall_forall in Hall. specialize (Hall _ Hin).
  unfold compose. destruct c; simpl in Hall |- *;
    rewrite !fmap_is_Some; by apply lookup_lt_is_Some.
Qed.

Lemma row_at_ext (df : DataFrame) (g : series → series) i j :
  Forall (λ c, series_lookup (g c.2) j = series_lookup c.2 i) df →
  row_at ((λ c, (c.1, g c.2)) <$> df) j = row_at df i.
Proof.
  unfold row_at. induction 1 as [|[n c] df Hc _ IH]; [done|].
  simpl in Hc. rewrite fmap_cons. cbn [mapM fst snd]. by rewrite Hc, IH.
Qed.

Lemma series_select_find (index : list datetime) (c : series) :
  let mask := (λ t, bool_decide (dt_hour t = 12)) <$> index in
  series_length c = length index →
  match list_find (λ t, dt_hour t = 12) index with
  | Some (i, _) =>
      series_lookup (series_select mask c) 0 = series_lookup c i
      ∧ (0 < series_length (series_select mask c))%nat
      ∧ (i < series_length c)%nat
  | None => series_length (series_select mask c) = 0%nat
  end.
Proof.
  intros mask Hlen. subst mask.
  destruct c as [l|l|l|l]; simpl in *;
    pose proof (select_find (λ t, dt_hour t = 12) index l Hlen) as Hsel;
    (destruct (list_find _ index) as [[i t]|];
      [ destruct Hsel as [Hsel Hi]; rewrite Hsel; split; [done|];
        split; [ apply lookup_lt_is_Some; rewrite Hsel; by apply not_eq_None_Some
               | by apply lookup_lt_is_Some, not_eq_None_Some ]
      | by rewrite Hsel ]).
Qed.

(** [midday_data] returns the row at [representative_index]. *)
Lemma midday_data_representative df index :
  forecast_table df index → index ≠ [] →
  ∃ r, midday_data df = Ok r ∧ row_at df (representative_index index) = Some r.
Proof.
  intros Hdf Hne. pose proof (forecast_table_len _ _ Hdf) as [Hlen Hdf0].
  destruct Hdf as [Hcol Hall].
  unfold midday_data, representative_index. rewrite Hcol.
  cbv beta iota delta [mbind result_bind hour_is].
  set (mask := (λ t, bool_decide (dt_hour t = 12)) <$> index).
  assert (Forall (λ c : string * series,
    match list_find (λ t, dt_hour t = 12) index with
    | Some (i, _) =>
        series_lookup (series_select mask c.2) 0 = series_lookup c.2 i
        ∧ (0 < series_length (series_select mask c.2))%nat
        ∧ (i < series_length c.2)%nat
    | None => series_length (series_select mask c.2) = 0%nat
    end) df) as Hsel.
  { eapply Forall_impl; [exact Hall|]. intros c Hc. by apply series_select_find. }
  clearbody mask.
  destruct (list_find _ index) as [[i t]|] eqn:Hfind.
  - assert (is_Some (row_at df i)) as [r Hr].
    { apply row_at_is_Some. eapply Forall_impl; [exact Hsel|]. by intros c (_ & _ & Hi). }
    exists r. split; [|done].
    assert (row_at (df_select mask df) 0 = Some r) as Hr0.
    { rewrite <-Hr. apply row_at_ext. eapply Forall_impl; [exact Hsel|]. by intros c [Hc _]. }
    assert (0 < len (df_select mask df))%nat as Hpos.
    { destruct df as [|[n c] df]; [by destruct Hdf0|].
      apply Forall_inv in Hsel. simpl in *. tauto. }
    assert (df_empty (df_select mask df) = false) as ->.
    { unfold df_empty. destruct (df_select mask df); [simpl in Hpos; lia|].
      apply bool_decide_eq_false. lia. }
    unfold iloc. rewrite decide_True by done. by rewrite Hr0.
  - assert (df_empty (df_select mask df) = true) as ->.
    { unfold df_empty. destruct df as [|[n c] df]; [by destruct Hdf0|].
      apply Forall_inv in Hsel. simpl in *. by apply bool_decide_eq_true. }
    cbn [negb]. assert (len df / 2 < len df)%nat as Hhalf.
    { rewrite Hlen. apply Nat.div_lt; [|lia]. destruct index; [done|simpl; lia]. }
    assert (is_Some (row_at df (len df / 2))) as [r Hr].
    { apply row_at_is_Some. eapply Forall_impl; [exact Hall|].
      intros c Hc. simpl in Hc. rewrite Hc, <-Hlen. done. }
    exists r. rewrite <-Hlen. split; [|done].
    unfold iloc. rewrite decide_True by done. by rewrite Hr.
Qed.

(** [representative_index] spelled out. *)
Lemma representative_index_spec (index : list datetime) :
  let i := representative_index index in
  (∃ t, index !! i = Some t ∧ dt_hour t = 12
        ∧ ∀ j t', (j < i)%nat → index !! j = Some t' → dt_hour t' ≠ 12)
  ∨ (Forall (λ t, dt_hour t ≠ 12) index ∧ i = (length index / 2)%nat).
Proof.
  unfold representative_index.
  destruct (list_find _ index) as [[i t]|] eqn:Hfind.
  - left. apply list_find_Some in Hfind as (Hi & Ht & Hbefore).
    exists t. split; [done|]. split; [done|].
    intros j t' Hj Hj'. by eapply Hbefore.
  - right. by apply list_find_None in Hfind.
Qed.

(** C6. On a forecast table with at least one row, [midday_data] returns a
    row of the table: the first row whose timestamp has hour 12 when there
    is one, and otherwise, when no timestamp has hour 12, the row at index
    [length div 2]. *)
Theorem midday_data_policy df index :
  forecast_table df index → index ≠ [] →
  ∃ i r,
    midday_data df = Ok r ∧ row_at df i = Some r
    ∧ ((∃ t, index !! i = Some t ∧ dt_hour t = 12
             ∧ ∀ j t', (j < i)%nat → index !! j = Some t' → dt_hour t' ≠ 12)
       ∨ (Forall (λ t, dt_hour t ≠ 12) index ∧ i = (length index / 2)%nat)).
Proof.
  intros Hdf Hne.
  destruct (midday_data_representative df index Hdf Hne) as (r & Hr & Hrow).
  exists (representative_index index), r. split; [done|]. split; [done|].
  apply representative_index_spec.
Qed.

End MiddayFacts.

(** ** Marine life *)

Lemma string_app_assoc (a b c : string) : (a +:+ b) +:+ c = a +:+ (b +:+ c).
Proof.
  induction a as [|x a IH]; [done|].
  change (String x ((a +:+ b) +:+ c) = String x (a +:+ (b +:+ c))).
  by rewrite IH.
Qed.

Lemma join_cons sep (t : string) (rest : list string) :
  join sep (t :: rest) =
  match rest with [] => t | _ => t +:+ sep +:+ join sep rest end.
Proof. by destruct rest. Qed.

(** Appending text by text from the left gives Python's [join]. *)
Lemma foldl_join (first : string) (rest : list string) :
  foldl (λ acc t, acc +:+ newline +:+ t) first rest = join newline (first :: rest).
Proof.
  revert first. induction rest as [|t rest IH]; intros first; [done|].
  cbn [foldl]. rewrite IH, (join_cons _ first), !(join_cons _ _ rest).
  destruct rest as [|t' rest]; [done|]. cbv beta iota.
  by rewrite !string_app_assoc.
Qed.

Lemma join_newline_separated (texts : list string) :
  join newline texts = newline_separated texts.
Proof. destruct texts as [|first rest]; [done|]. symmetry. apply foldl_join. Qed.

Lemma contents_Some (hits : list search_hit) (texts : list string) :
  content <$> hits = Some <$> texts → contents hits = Ok texts.
Proof.
  revert texts. induction hits as [|[c] hits IH]; intros [|t texts] Heq; try done.
  simpl in Heq. injection Heq as -> Heq. simpl. by rewrite (IH _ Heq).
Qed.

Section SummaryFacts.
Context `{Platform}.

(** [search_marine_life] is [summarize] under the spinner and behind the
    handler. *)
Lemma search_marine_life_summarize env location date s :
  search_marine_life env location date s =
  match summarize env location date with
  | Ok text => (Done text, searching s location date)
  | Raise e => (Done fallback_text, search_failed s location date e)
  end.
Proof.
  unfold search_marine_life, summarize, try_except.
  unfold mbind at 1 2 3 4 5 6, M_bind, bind, lift, show.
  destruct (tavily_search _ _) as [search_result|e]; [|reflexivity]. result_step.
  destruct (results search_result) as [hits|]; [|reflexivity]. simpl from_option; cbv beta iota.
  destruct (context_of hits) as [context|e]; [|reflexivity]. result_step.
  destruct (generate_content _ _) as [response|e]; [|reflexivity]. result_step.
  destruct (response_text response) as [text|e]; reflexivity.
Qed.

(** C5. [search_marine_life] always returns a string to its caller and
    never fails: either the try block produced the text, or it raised and
    the function showed an error box and returned the fallback text, which
    is not empty.  In particular this is what happens when the search
    provider raises and when the generation provider raises. *)
Theorem search_marine_life_never_raises env location date s :
  fallback_text ≠ ""
  ∧ ((∃ text, summarize env location date = Ok text
              ∧ search_marine_life env location date s
                = (Done text, searching s location date))
     ∨ (∃ e, summarize env location date = Raise e
             ∧ search_marine_life env location date s
               = (Done fallback_text, search_failed s location date e)))
  ∧ (∀ e,
       tavily_search env
         (query_of (from_option str_cell "None" location) (month date)) = Raise e →
       search_marine_life env location date s
       = (Done fallback_text, search_failed s location date e))
  ∧ (∀ hits context e,
       tavily_search env
         (query_of (from_option str_cell "None" location) (month date))
         = Ok (SearchResponse (Some hits)) →
       context_of hits = Ok context →
       generate_content env
         (prompt_of (from_option str_cell "None" location) (month date) context)
         = Raise e →
       search_marine_life env location date s
       = (Done fallback_text, search_failed s location date e)).
Proof.
  rewrite search_marine_life_summarize.
  split; [done|]. split; [|split].
  - destruct (summarize env location date) as [text|e]; [left|right]; by eexists.
  - intros e He. unfold summarize. by rewrite He.
  - intros hits context e Hs Hc Hg. unfold summarize.
    rewrite Hs. result_step. simpl from_option; cbv beta iota. rewrite Hc. result_step.
    by rewrite Hg.
Qed.

(** C9. For search results that all carry a [content], the context is the
    contents in the order returned, separated by newlines; the generation
    provider is called on the prompt built around that context and its
    answer decides what [search_marine_life] returns; with no result at
    all the context is the empty string and the provider is still called,
    on the prompt with the empty context. *)
Theorem context_newline_separated env location date s hits texts :
  content <$> hits = Some <$> texts →
  context_of hits = Ok (newline_separated texts)
  ∧ (tavily_search env
       (query_of (from_option str_cell "None" location) (month date))
       = Ok (SearchResponse (Some hits)) →
     search_marine_life env location date s =
     match
       generate_content env
         (prompt_of (from_option str_cell "None" location) (month date)
                    (newline_separated texts))
       ≫= response_text
     with
     | Ok text => (Done text, searching s location date)
     | Raise e => (Done fallback_text, search_failed s location date e)
     end)
  ∧ (hits = [] →
     context_of hits = Ok ""
     ∧ (tavily_search env
          (query_of (from_option str_cell "None" location) (month date))
          = Ok (SearchResponse (Some hits)) →
        search_marine_life env location date s =
        match
          generate_content env
            (prompt_of (from_option str_cell "None" location) (month date) "")
          ≫= response_text
        with
        | Ok text => (Done text, searching s location date)
        | Raise e => (Done fallback_text, search_failed s location date e)
        end)).
Proof.
  intros Hhits.
  assert (context_of hits = Ok (newline_separated texts)) as Hctx.
  { unfold context_of. rewrite (contents_Some _ _ Hhits). result_step.
    by rewrite join_newline_separated. }
  assert (tavily_search env
            (query_of (from_option str_cell "None" location) (month date))
            = Ok (SearchResponse (Some hits)) →
          search_marine_life env location date s =
          match
            generate_content env
              (prompt_of (from_option str_cell "None" location) (month date)
                         (newline_separated texts))
            ≫= response_text
          with
          | Ok text => (Done text, searching s location date)
          | Raise e => (Done fallback_text, search_failed s location date e)
          end) as Hrun.
  { intros Hs. rewrite search_marine_life_summarize. unfold summarize.
    rewrite Hs. result_step. simpl from_option; cbv beta iota.
    rewrite Hctx. by result_step. }
  split; [done|]. split; [done|].
  intros ->. destruct texts as [|t texts]; [|done]. by split.
Qed.

End SummaryFacts.

(** ** Start-up *)

Section StartupFacts.
Context `{Platform}.

Lemma take_column_None (t : spot_table) name :
  name ∉ t.*1 → take_column t name = None.
Proof.
  induction t as [|[n c] t IH]; [done|]. simpl. intros Hn.
  apply not_elem_of_cons in Hn as [Hne Hn].
  rewrite decide_False by done. by rewrite IH.
Qed.

(** [load_spots] stops the script as soon as the pipeline raises. *)
Lemma load_spots_Raise env s e :
  (df ← read_csv env; indexed ← set_index df "name"; to_dict_index indexed)
  = Raise e →
  load_spots env s = (Stopped, spots_failed s e).
Proof.
  unfold load_spots, try_except, lift. intros ->. reflexivity.
Qed.

(** The three ways [load_secrets] can end. *)
Lemma load_secrets_cases env s :
  (∃ keys, load_secrets env s = (Done keys, s))
  ∨ load_secrets env s = (Stopped, secrets_missing s)
  ∨ (∃ k, load_secrets env s = (Failed (KeyError k), s)).
Proof.
  unfold load_secrets, try_except, lift.
  destruct (secrets env) as [store|]; [|right; left; reflexivity].
  simpl from_option; cbv beta iota. result_step. unfold getitem.
  destruct (store !! "general") as [general|]; [|right; right; by eexists].
  destruct (general !! "GOOGLE_API_KEY"); [|right; right; by eexists].
  destruct (general !! "TAVILY_API_KEY"); [|right; right; by eexists].
  left. by eexists.
Qed.

(** If the spot registry cannot be loaded, the run ends before the
    interactive surface, whatever the secret store holds. *)
Lemma run_halted_at_spots env session0 :
  (∀ s, ∃ e, load_spots env s = (Stopped, spots_failed s e)) →
  halted (run env session0).
Proof.
  intros Hspots. unfold run, script, startup.
  unfold mbind at 1 5 6, M_bind, bind, show. cbn [page session app].
  destruct (load_secrets_cases env (State [PageConfig] session0))
    as [[keys ->]|[->|[k ->]]].
  - destruct (Hspots (State [PageConfig] session0)) as [e ->].
    split; [done|]. by repeat constructor.
  - split; [done|]. by repeat constructor.
  - split; [done|]. by repeat constructor.
Qed.

(** C7, as the code has it.  When [pd.read_csv] raises (the file is missing
    or cannot be parsed) or the table has no [name] column, [load_spots]
    shows the error box and stops the script, and the run ends before any
    interactive widget is drawn.  Nothing is claimed about a table that
    lacks [lat] or [lon]. *)
Theorem load_spots_fatal env s :
  (∃ e, read_csv env = Raise e)
  ∨ (∃ t, read_csv env = Ok t ∧ "name" ∉ t.*1) →
  (∃ e, load_spots env s = (Stopped, spots_failed s e))
  ∧ ∀ session0, halted (run env session0).
Proof.
  intros Hcsv.
  assert (∃ e, (df ← read_csv env; indexed ← set_index df "name";
                to_dict_index indexed) = Raise e) as [e He].
  { destruct Hcsv as [[e ->]|(t & -> & Hname)]; [by exists e|].
    result_step. unfold set_index. rewrite (take_column_None _ _ Hname).
    by eexists. }
  split.
  - exists e. by apply load_spots_Raise.
  - intros session0. apply run_halted_at_spots.
    intros s'. exists e. by apply load_spots_Raise.
Qed.

(** C10. When the [name] column of the spot table holds the same name at
    two positions, [to_dict("index")] raises, [load_spots] shows the error
    box and stops the script: no dictionary is built, and the run ends
    before any interactive widget is drawn. *)
Theorem load_spots_rejects_duplicates env s t names others i j name :
  read_csv env = Ok t →
  take_column t "name" = Some (names, others) →
  names !! i = Some name → names !! j = Some name → i ≠ j →
  load_spots env s
  = (Stopped,
     spots_failed s
       (ValueError "DataFrame index must be unique for orient='index'."))
  ∧ ∀ session0, halted (run env session0).
Proof.
  intros Hcsv Hnames Hi Hj Hij.
  assert ((df ← read_csv env; indexed ← set_index df "name";
           to_dict_index indexed)
          = Raise (ValueError "DataFrame index must be unique for orient='index'."))
    as Hraise.
  { rewrite Hcsv. result_step. unfold set_index. rewrite Hnames. result_step.
    unfold to_dict_index, is_unique. cbn [index].
    rewrite bool_decide_eq_false_2; [done|].
    intros Hnodup. apply Hij. by eapply NoDup_lookup. }
  split.
  - by apply load_spots_Raise.
  - intros session0. apply run_halted_at_spots.
    intros s'. eexists. by apply load_spots_Raise.
Qed.

(** Without a secret store the script shows its message and stops. *)
Lemma load_secrets_missing_store env s :
  secrets env = None → load_secrets env s = (Stopped, secrets_missing s).
Proof. unfold load_secrets, try_except, lift. by intros ->. Qed.

(** With a store that lacks a key, the [KeyError] of the lookup is not
    caught by [except FileNotFoundError]. *)
Lemma load_secrets_missing_key env s store general :
  secrets env = Some store → store !! "general" = Some general →
  general !! "GOOGLE_API_KEY" = None ∨ general !! "TAVILY_API_KEY" = None →
  ∃ k, load_secrets env s = (Failed (KeyError k), s).
Proof.
  unfold load_secrets, try_except, lift. intros -> Hg Hkey.
  simpl from_option; cbv beta iota. result_step. unfold getitem. rewrite Hg.
  destruct (general !! "GOOGLE_API_KEY"); [|by eexists].
  destruct Hkey as [?| ->]; [done|]. by eexists.
Qed.

(** Whichever credential is absent, the run ends before the interactive
    surface: by [st.stop()] after the message when the store is missing, by
    the uncaught [KeyError] when a section or key is. *)
Lemma run_halted_without_credentials env session0 :
  (∀ store general,
     secrets env = Some store → store !! "general" = Some general →
     general !! "GOOGLE_API_KEY" = None ∨ general !! "TAVILY_API_KEY" = None) →
  halted (run env session0).
Proof.
  intros Habsent. unfold run, script, startup.
  unfold mbind at 1 5 6, M_bind, bind, show. cbn [page session app].
  destruct (load_secrets_cases env (State [PageConfig] session0))
    as [[keys Hkeys]|[->|[k ->]]].
  - exfalso. revert Hkeys. unfold load_secrets, try_except, lift.
    destruct (secrets env) as [store|] eqn:Hs; [|done].
    simpl from_option; cbv beta iota. result_step. unfold getitem.
    destruct (store !! "general") as [general|] eqn:Hg; [|done].
    destruct (Habsent store general eq_refl Hg) as [-> | Ht]; [done|].
    destruct (general !! "GOOGLE_API_KEY"); [|done]. by rewrite Ht.
  - split; [done|]. by repeat constructor.
  - split; [done|]. by repeat constructor.
Qed.

(** A run in which [load_secrets] does not return ends as [load_secrets]
    ended. *)
Lemma run_ends_at_secrets env session0 :
  run env session0
  = match load_secrets env (State [PageConfig] session0) with
    | (Done _, s1) =>
        match load_spots env s1 with
        | (Done DIVING_SPOTS, s2) =>
            ('(selected_spot_name, selected_date, pressed) ← inputs env DIVING_SPOTS;
             (if pressed : bool
              then main_processing env DIVING_SPOTS selected_spot_name selected_date
              else mret ()) ;;
             data ← get_session;
             match data with
             | Some data => display data
             | None => mret ()
             end) s2
        | (Failed e, s2) => (Failed e, s2)
        | (Stopped, s2) => (Stopped, s2)
        end
    | (Failed e, s1) => (Failed e, s1)
    | (Stopped, s1) => (Stopped, s1)
    end.
Proof.
  unfold run, script, startup.
  unfold mbind at 1 5 6, M_bind, bind, show. cbn [page session app].
  by destruct (load_secrets env _) as [[keys|e|] s1].
Qed.

(** The [KeyError] that [load_secrets] lets through names the first section
    or key that the store lacks. *)
Lemma load_secrets_KeyError env s store :
  secrets env = Some store →
  (store !! "general" = None →
   load_secrets env s = (Failed (KeyError "general"), s))
  ∧ (∀ general,
       store !! "general" = Some general →
       (general !! "GOOGLE_API_KEY" = None →
        load_secrets env s = (Failed (KeyError "GOOGLE_API_KEY"), s))
       ∧ (is_Some (general !! "GOOGLE_API_KEY") →
          general !! "TAVILY_API_KEY" = None →
          load_secrets env s = (Failed (KeyError "TAVILY_API_KEY"), s))).
Proof.
  intros Hs. unfold load_secrets, try_except, lift. rewrite Hs.
  simpl from_option; cbv beta iota. result_step. unfold getitem. split.
  - by intros ->.
  - intros general ->. split.
    + by intros ->.
    + intros [key ->] ->. reflexivity.
Qed.

(** C8. In every start-up state in which a credential is absent (no secret
    store, no [general] section in it, or no [GOOGLE_API_KEY] or no
    [TAVILY_API_KEY] in that section) the run ends before anything of the
    interactive surface is drawn, and it ends with a diagnostic: without a
    store, the script's own error box followed by [st.stop()]; otherwise
    the [KeyError] of the lookup, which names a section or key that the
    store lacks and which no handler catches, so that it ends the run
    with only the page configuration done. *)
Theorem absent_credential_halts env session0 :
  secrets env = None
  ∨ (∃ store, secrets env = Some store
       ∧ (store !! "general" = None
          ∨ ∃ general, store !! "general" = Some general
              ∧ (general !! "GOOGLE_API_KEY" = None
                 ∨ general !! "TAVILY_API_KEY" = None))) →
  halted (run env session0)
  ∧ ((secrets env = None
      ∧ run env session0 = (Stopped, secrets_missing (State [PageConfig] session0)))
     ∨ (∃ store k,
          secrets env = Some store
          ∧ run env session0 = (Failed (KeyError k), State [PageConfig] session0)
          ∧ ((k = "general" ∧ store !! "general" = None)
             ∨ (∃ general, store !! "general" = Some general
                  ∧ general !! k = None
                  ∧ (k = "GOOGLE_API_KEY" ∨ k = "TAVILY_API_KEY"))))).
Proof.
  intros Habsent. split.
  - apply run_halted_without_credentials. intros store general Hs Hg.
    destruct Habsent as [Hnone|(store' & Hs' & Hkeys)]; [congruence|].
    rewrite Hs in Hs'. injection Hs' as <-.
    destruct Hkeys as [Hnone|(general' & Hg' & Hkeys)]; [congruence|].
    rewrite Hg in Hg'. by injection Hg' as <-.
  - rewrite run_ends_at_secrets.
    destruct Habsent as [Hnone|(store & Hs & Hkeys)].
    + left. split; [done|]. by rewrite (load_secrets_missing_store _ _ Hnone).
    + right. exists store.
      destruct (load_secrets_KeyError env (State [PageConfig] session0) store Hs)
        as [Hsection Hkey].
      destruct Hkeys as [Hnone|(general & Hg & Hkeys)].
      * exists "general". rewrite (Hsection Hnone). split; [done|]. split; [done|].
        by left.
      * destruct (Hkey general Hg) as [Hgoogle Htavily].
        destruct (general !! "GOOGLE_API_KEY") as [key|] eqn:Hgk.
        -- destruct Hkeys as [Hx|Hnone]; [discriminate Hx|].
           exists "TAVILY_API_KEY". rewrite (Htavily (mk_is_Some _ _ eq_refl) Hnone).
           split; [done|]. split; [done|]. right. exists general. by auto.
        -- exists "GOOGLE_API_KEY". rewrite (Hgoogle eq_refl).
           split; [done|]. split; [done|]. right. exists general. by auto.
Qed.

End StartupFacts.

(** ** The properties at work *)

Example weather_label_known : weather_label <$> [0; 3; 61; 82] = ["快晴"; "曇り"; "雨(軽)"; "にわか雨(強)"].
Proof. reflexivity. Qed.

Example weather_label_unknown : weather_label <$> [999; 4; -5] = ["不明(999)"; "不明(4)"; "不明(-5)"].
Proof. reflexivity. Qed.

(** Three samples ending at noon: the row of 12:00 is shown, not the middle
    one. *)
Example midday_at_noon :
  (midday_data noon_table ≫= λ r, field r "time")
  = Ok (VDatetime (Datetime (Date 2024 7 15) 12 0))
  ∧ (midday_data noon_table ≫= λ r, field r "天気") = Ok (VStr "不明(999)").
Proof. split; reflexivity. Qed.

(** Three samples before dawn: the middle row, of 01:00, is shown. *)
Example midday_fallback :
  (midday_data night_table ≫= λ r, field r "time")
  = Ok (VDatetime (Datetime (Date 2024 7 15) 1 0)).
Proof. reflexivity. Qed.

(** A run in which everything answers: the script completes and keeps the
    three-row table in the session. *)
Example run_completes :
  fst (run (demo_world noon_marine noon_weather) None) = Done ()
  ∧ (dd_df <$> session (snd (run (demo_world noon_marine noon_weather) None)))
    = Some (Some noon_table).
Proof. split; reflexivity. Qed.

Example prompt_ends_with_context :
  prompt_of "Spot A" 7 "CONTEXT" =
  "
            以下の検索結果に基づいて、Spot Aの7月にダイビングで見られる可能性が高い海洋生物をリストアップしてください。
            出力は以下のフォーマットのみを含むマークダウンの箇条書きにしてください。余計な前置きは不要です。

            - **生物名**: 特徴や見どころ（一言で）

            検索結果:
            CONTEXT
            ".
Proof. reflexivity. Qed.

Lemma get_meteo_data_ragged_fails_witness :
  metric_lengths ragged_marine noon_weather !! 5%nat = Some 2%nat
  ∧ length (times_of ragged_marine) = 3%nat
  ∧ ∃ msg, get_meteo_data (demo_world ragged_marine noon_weather)
             demo_lat demo_lon demo_date blank
           = (Done None, fetch_failed blank (ValueError msg)).
Proof.
  split; [reflexivity|]. split; [reflexivity|].
  apply (get_meteo_data_ragged_fails (demo_world ragged_marine noon_weather)
           demo_lat demo_lon demo_date blank ragged_marine noon_weather 5%nat 2%nat);
    [reflexivity | reflexivity | reflexivity | simpl; lia].
Defined.

(** Counterexample to C2 as stated: the wave heights stop one sample short of the
    three timestamps and the swell heights are absent, and instead of a
    table with unavailable entries the caller gets [None]. *)
Lemma ragged_arrays_give_no_table :
  get_meteo_data (demo_world ragged_marine noon_weather)
    demo_lat demo_lon demo_date blank
  = (Done None,
     fetch_failed blank (ValueError "All arrays must be of the same length"))
  ∧ ¬ ∃ df s', get_meteo_data (demo_world ragged_marine noon_weather)
                 demo_lat demo_lon demo_date blank = (Done (Some df), s').
Proof.
  assert (get_meteo_data (demo_world ragged_marine noon_weather)
            demo_lat demo_lon demo_date blank
          = (Done None,
             fetch_failed blank (ValueError "All arrays must be of the same length")))
    as Hrun by reflexivity.
  split; [exact Hrun|]. intros (df & s' & Hdf). rewrite Hrun in Hdf. discriminate Hdf.
Qed.

Lemma get_meteo_data_empty_axis_witness :
  times_of empty_marine = []
  ∧ ∃ df, get_meteo_data (demo_world empty_marine empty_weather)
            demo_lat demo_lon demo_date blank = (Done (Some df), blank)
          ∧ len df = 0%nat
          ∧ Forall (λ c, series_length c.2 = 0%nat) df.
Proof.
  split; [reflexivity|].
  apply (get_meteo_data_empty_axis (demo_world empty_marine empty_weather)
           demo_lat demo_lon demo_date blank empty_marine empty_weather);
    [reflexivity | reflexivity | reflexivity | repeat constructor].
Defined.

(** Counterexample to C3 as stated, twice over.  With an empty time axis and a weather
    response that has samples, the result is [None], not an empty table.
    With everything empty the table has no rows, and then the display
    raises [IndexError] at [df.iloc[0]] instead of showing a no-data
    state; the exception ends the run. *)
Lemma empty_time_axis_counterexample :
  times_of empty_marine = []
  ∧ get_meteo_data (demo_world empty_marine noon_weather)
      demo_lat demo_lon demo_date blank
    = (Done None,
       fetch_failed blank (ValueError "All arrays must be of the same length"))
  ∧ (∃ df, get_meteo_data (demo_world empty_marine empty_weather)
             demo_lat demo_lon demo_date blank = (Done (Some df), blank)
           ∧ len df = 0%nat
           ∧ midday_data df = Raise IndexError
           ∧ display_forecast df blank = (Failed IndexError, blank))
  ∧ fst (run (demo_world empty_marine empty_weather) None) = Failed IndexError.
Proof.
  split; [reflexivity|]. split; [reflexivity|]. split.
  - eexists. split; [reflexivity|]. split; [reflexivity|]. split; reflexivity.
  - reflexivity.
Qed.

Lemma midday_data_policy_witness :
  (∃ i r, midday_data noon_table = Ok r ∧ row_at noon_table i = Some r
     ∧ ((∃ t, axis_of noon_marine !! i = Some t ∧ dt_hour t = 12
              ∧ ∀ j t', (j < i)%nat → axis_of noon_marine !! j = Some t' →
                        dt_hour t' ≠ 12)
        ∨ (Forall (λ t, dt_hour t ≠ 12) (axis_of noon_marine)
           ∧ i = (length (axis_of noon_marine) / 2)%nat)))
  ∧ (∃ i r, midday_data night_table = Ok r ∧ row_at night_table i = Some r
     ∧ ((∃ t, axis_of night_marine !! i = Some t ∧ dt_hour t = 12
              ∧ ∀ j t', (j < i)%nat → axis_of night_marine !! j = Some t' →
                        dt_hour t' ≠ 12)
        ∨ (Forall (λ t, dt_hour t ≠ 12) (axis_of night_marine)
           ∧ i = (length (axis_of night_marine) / 2)%nat))).
Proof.
  split.
  - apply (midday_data_policy noon_table (axis_of noon_marine)).
    + split; [reflexivity|]. repeat constructor.
    + discriminate.
  - apply (midday_data_policy night_table (axis_of night_marine)).
    + split; [reflexivity|]. repeat constructor.
    + discriminate.
Defined.

Lemma search_marine_life_never_raises_witness :
  search_marine_life world_search_down (Some (Text "Spot A")) demo_date blank
  = (Done fallback_text,
     search_failed blank (Some (Text "Spot A")) demo_date (ProviderError "timeout")).
Proof.
  apply (proj1 (proj2 (proj2
    (search_marine_life_never_raises world_search_down
       (Some (Text "Spot A")) demo_date blank)))).
  reflexivity.
Defined.

Lemma context_newline_separated_witness :
  context_of demo_hits
  = Ok (newline_separated ["クマノミが見られます"; "ウミガメに会える季節"])
  ∧ search_marine_life (demo_world noon_marine noon_weather)
      (Some (Text "Spot A")) demo_date blank
    = (Done demo_answer, searching blank (Some (Text "Spot A")) demo_date)
  ∧ context_of [] = Ok ""
  ∧ search_marine_life world_no_hits (Some (Text "Spot A")) demo_date blank
    = (Done demo_answer, searching blank (Some (Text "Spot A")) demo_date).
Proof.
  destruct (context_newline_separated (demo_world noon_marine noon_weather)
              (Some (Text "Spot A")) demo_date blank demo_hits
              ["クマノミが見られます"; "ウミガメに会える季節"] eq_refl)
    as (Hctx & Hrun & _).
  destruct (context_newline_separated world_no_hits
              (Some (Text "Spot A")) demo_date blank [] [] eq_refl)
    as (_ & _ & Hnone).
  destruct (Hnone eq_refl) as [Hempty Hrun0].
  split; [exact Hctx|]. split; [rewrite Hrun; reflexivity|].
  split; [exact Hempty|]. rewrite Hrun0; reflexivity.
Defined.

Lemma load_spots_fatal_witness :
  (∃ e, load_spots world_without_spot_file blank = (Stopped, spots_failed blank e))
  ∧ ∀ session0, halted (run world_without_spot_file session0).
Proof.
  apply (load_spots_fatal world_without_spot_file blank).
  left. exists FileNotFoundError. reflexivity.
Defined.

(** Counterexample to C7 as stated: the spot file has no [lat] column, yet the
    registry loads; the absence only shows when the button is pressed, as
    an uncaught [KeyError], after the interactive widgets were drawn. *)
Lemma missing_lat_still_loads :
  ("lat" ∉ csv_without_lat.*1)
  ∧ load_spots world_without_lat blank
    = (Done [(Text "Spot A", [("lon", Number "139.0")])], blank)
  ∧ fst (run world_without_lat None) = Failed (KeyError "lat")
  ∧ ¬ halted (run world_without_lat None).
Proof.
  split; [|split; [|split]].
  - apply (bool_decide_unpack _). vm_compute. exact I.
  - reflexivity.
  - reflexivity.
  - intros [_ Hpage]. apply Forall_lookup_1 with (i := 1%nat) (x := Title "🤿 Scuba Diving Agent") in Hpage.
    + discriminate Hpage.
    + reflexivity.
Qed.

Lemma load_spots_rejects_duplicates_witness :
  load_spots world_with_duplicate blank
  = (Stopped,
     spots_failed blank
       (ValueError "DataFrame index must be unique for orient='index'."))
  ∧ ∀ session0, halted (run world_with_duplicate session0).
Proof.
  eapply (load_spots_rejects_duplicates world_with_duplicate blank
            csv_with_duplicate _ _ 0%nat 1%nat (Text "Spot A"));
    [reflexivity | reflexivity | reflexivity | reflexivity | lia].
Defined.

(** A secret store that holds no Tavily key: the lookup raises [KeyError],
    which the handler for [FileNotFoundError] does not catch, and the run
    is ended by that exception with only the page configuration done. *)
Example missing_tavily_key_is_uncaught :
  load_secrets world_without_tavily_key blank
  = (Failed (KeyError "TAVILY_API_KEY"), blank)
  ∧ run world_without_tavily_key None
    = (Failed (KeyError "TAVILY_API_KEY"), State [PageConfig] None).
Proof. split; reflexivity. Qed.

Lemma absent_credential_halts_witness :
  (halted (run world_without_tavily_key None)
   ∧ ∃ store general,
       secrets world_without_tavily_key = Some store
       ∧ store !! "general" = Some general
       ∧ general !! "TAVILY_API_KEY" = None)
  ∧ (halted (run world_without_secrets None)
     ∧ secrets world_without_secrets = None).
Proof.
  split.
  - split.
    + apply (absent_credential_halts world_without_tavily_key None).
      right. eexists. split; [reflexivity|]. right. eexists.
      split; [reflexivity|]. right. reflexivity.
    + eexists _, _. split; [reflexivity|]. split; reflexivity.
  - split; [|reflexivity].
    apply (absent_credential_halts world_without_secrets None).
    left. reflexivity.
Defined.

(** * More of the script *)

(** ** Weather labels and the fetched table *)

Lemma label_not_fallback x label y :
  WEATHER_CODE_MAP !! x = Some label → label ≠ "不明(" +:+ str_int y +:+ ")".
Proof.
  intros Hx. apply elem_of_list_to_map_2 in Hx.
  repeat (apply elem_of_cons in Hx as [[= -> ->]|Hx]; [intros Heq; discriminate Heq|]).
  by apply elem_of_nil in Hx.
Qed.

Lemma WEATHER_CODE_MAP_inj x y label :
  WEATHER_CODE_MAP !! x = Some label → WEATHER_CODE_MAP !! y = Some label → x = y.
Proof.
  intros Hx Hy.
  apply elem_of_list_to_map_2 in Hx. apply elem_of_list_to_map_2 in Hy.
  repeat (apply elem_of_cons in Hx as [[= -> ->]|Hx];
    [repeat (apply elem_of_cons in Hy as [Heq|Hy]; [by simplify_eq|]);
     by apply elem_of_nil in Hy|]).
  by apply elem_of_nil in Hx.
Qed.

(** X1. Two different integer codes never get the same label, mapped or
    not: the code can be read back from the label. *)
Theorem weather_label_inj x y : weather_label x = weather_label y → x = y.
Proof.
  unfold weather_label.
  destruct (WEATHER_CODE_MAP !! x) as [lx|] eqn:Hx;
    destruct (WEATHER_CODE_MAP !! y) as [ly|] eqn:Hy; simpl.
  - intros ->. by eapply WEATHER_CODE_MAP_inj.
  - intros Heq. by destruct (label_not_fallback x lx y Hx).
  - intros Heq. by destruct (label_not_fallback y ly x Hy).
  - intros Heq. apply (inj (String.append "不明(")) in Heq.
    assert (∀ a b : string, a +:+ ")" = b +:+ ")" → a = b) as Hsuffix.
    { induction a as [|c a IH]; intros [|d b] Hab; try done.
      - destruct b; discriminate Hab.
      - destruct a; discriminate Hab.
      - injection Hab as -> Hab. f_equal. by apply IH. }
    apply Hsuffix in Heq. by apply (inj pretty) in Heq.
Qed.

Section More.
Context `{Platform}.

Lemma merge_Ok_intro marine_res weather_res index :
  to_datetime (times_of marine_res) = Some index →
  Forall (λ n, n = length (times_of marine_res))
         (metric_lengths marine_res weather_res) →
  merge_responses marine_res weather_res
  = Ok (forecast_columns index
          (default no_marine (marine_hourly_of marine_res))
          (default no_weather (weather_hourly_of weather_res))
        ++ [("天気", Strs (weather_label <$>
               default [] (weather_code
                 (default no_weather (weather_hourly_of weather_res)))))]).
Proof.
  intros Ht Hall. unfold merge_responses, pd_to_datetime, pd_DataFrame.
  rewrite Ht. result_step.
  assert (same_length (forecast_columns index
      (default no_marine (marine_hourly_of marine_res))
      (default no_weather (weather_hourly_of weather_res))) = true) as ->.
  { apply same_length_forecast_columns.
    by rewrite (to_datetime_length _ _ Ht). }
  reflexivity.
Qed.

Lemma get_meteo_data_Some_intro env lat lon date s marine_res weather_res index :
  marine_api (open_meteo env) (marine_params lat lon date) = Ok marine_res →
  forecast_api (open_meteo env) (forecast_params lat lon date) = Ok weather_res →
  to_datetime (times_of marine_res) = Some index →
  Forall (λ n, n = length (times_of marine_res))
         (metric_lengths marine_res weather_res) →
  get_meteo_data env lat lon date s
  = (Done (Some (merged_table index marine_res weather_res)), s).
Proof.
  intros Hm Hw Ht Hall. rewrite get_meteo_data_merge, Hm, Hw. result_step.
  by rewrite (merge_Ok_intro _ _ _ Ht Hall).
Qed.

Lemma get_meteo_data_Some_inv env lat lon date s df s' :
  get_meteo_data env lat lon date s = (Done (Some df), s') →
  s' = s
  ∧ ∃ marine_res weather_res index,
      marine_api (open_meteo env) (marine_params lat lon date) = Ok marine_res
      ∧ forecast_api (open_meteo env) (forecast_params lat lon date) = Ok weather_res
      ∧ to_datetime (times_of marine_res) = Some index
      ∧ Forall (λ n, n = length (times_of marine_res))
               (metric_lengths marine_res weather_res)
      ∧ df = merged_table index marine_res weather_res.
Proof.
  rewrite get_meteo_data_merge.
  destruct (marine_api _ _) as [marine_res|e]; [|intros Hx; discriminate Hx].
  destruct (forecast_api _ _) as [weather_res|e]; [|intros Hx; discriminate Hx].
  result_step.
  destruct (merge_responses _ _) as [df'|e] eqn:Hmerge; [|intros Hx; discriminate Hx].
  intros [= -> ->]. split; [done|].
  apply merge_Ok in Hmerge as (index & Ht & Hall & ->).
  by exists marine_res, weather_res, index.
Qed.

(** X2. [get_meteo_data] returns a table exactly when both endpoints
    answer, the timestamps parse and every metric array (an absent one
    counting as empty) has one sample per timestamp; the table then holds
    the arrays as received, under their column names, followed by the
    label column. *)
Theorem get_meteo_data_table_iff env lat lon date s df :
  get_meteo_data env lat lon date s = (Done (Some df), s)
  ↔ ∃ marine_res weather_res index,
      marine_api (open_meteo env) (marine_params lat lon date) = Ok marine_res
      ∧ forecast_api (open_meteo env) (forecast_params lat lon date) = Ok weather_res
      ∧ to_datetime (times_of marine_res) = Some index
      ∧ Forall (λ n, n = length (times_of marine_res))
               (metric_lengths marine_res weather_res)
      ∧ df = merged_table index marine_res weather_res.
Proof.
  split.
  - intros Hrun. by apply get_meteo_data_Some_inv in Hrun as [_ Hrun].
  - intros (marine_res & weather_res & index & Hm & Hw & Ht & Hall & ->).
    by apply get_meteo_data_Some_intro.
Qed.

(** X3. A failure of either request, or timestamps that do not parse, fail
    the whole fetch: the exception is shown in the error box and [None] is
    returned.  When the marine request fails the forecast answer plays no
    part. *)
Theorem get_meteo_data_request_fails env lat lon date s e :
  (marine_api (open_meteo env) (marine_params lat lon date) = Raise e →
   get_meteo_data env lat lon date s = (Done None, fetch_failed s e))
  ∧ (∀ marine_res,
       marine_api (open_meteo env) (marine_params lat lon date) = Ok marine_res →
       forecast_api (open_meteo env) (forecast_params lat lon date) = Raise e →
       get_meteo_data env lat lon date s = (Done None, fetch_failed s e))
  ∧ (∀ marine_res weather_res,
       marine_api (open_meteo env) (marine_params lat lon date) = Ok marine_res →
       forecast_api (open_meteo env) (forecast_params lat lon date) = Ok weather_res →
       to_datetime (times_of marine_res) = None →
       get_meteo_data env lat lon date s
       = (Done None, fetch_failed s (ValueError "time data does not match format"))).
Proof.
  rewrite get_meteo_data_merge. split; [|split].
  - by intros ->.
  - by intros marine_res -> ->.
  - intros marine_res weather_res -> -> Ht. result_step.
    unfold merge_responses, pd_to_datetime. by rewrite Ht.
Qed.

(** X4. When both endpoints answer with a body that has no [hourly] key
    (the shape of an Open-Meteo error answer), [get_meteo_data] reports
    nothing: it draws no error box and returns a table without rows. *)
Theorem get_meteo_data_error_bodies env lat lon date s marine_res weather_res :
  marine_api (open_meteo env) (marine_params lat lon date) = Ok marine_res →
  forecast_api (open_meteo env) (forecast_params lat lon date) = Ok weather_res →
  marine_hourly_of marine_res = None →
  weather_hourly_of weather_res = None →
  ∃ df, get_meteo_data env lat lon date s = (Done (Some df), s)
        ∧ forecast_table df []
        ∧ len df = 0%nat.
Proof.
  intros Hm Hw Hmh Hwh.
  assert (times_of marine_res = []) as Ht. { unfold times_of. by rewrite Hmh. }
  assert (Forall (λ n, n = length (times_of marine_res))
            (metric_lengths marine_res weather_res)) as Hall.
  { rewrite Ht. unfold metric_lengths. rewrite Hmh, Hwh. by repeat constructor. }
  assert (to_datetime (times_of marine_res) = Some []) as Hparse.
  { rewrite Ht. apply to_datetime_nil. }
  exists (merged_table [] marine_res weather_res).
  split; [by apply get_meteo_data_Some_intro|].
  pose proof (merge_Ok_intro _ _ _ Hparse Hall) as Hmerge.
  apply merge_forecast_table in Hmerge as (index & Hparse' & _ & Hdf).
  rewrite Hparse in Hparse'. injection Hparse' as <-.
  split; [exact Hdf|]. pose proof (forecast_table_len _ _ Hdf) as [Hlen _]. exact Hlen.
Qed.

(** X5. In every table [get_meteo_data] returns, the [天気] column is the
    [天気コード] column translated row by row with [weather_label], and it
    has one label per row. *)
Theorem fetched_labels_follow_codes env lat lon date s df s' :
  get_meteo_data env lat lon date s = (Done (Some df), s') →
  ∃ codes,
    column df "天気コード" = Ok (Ints codes)
    ∧ column df "天気" = Ok (Strs (weather_label <$> codes))
    ∧ length (weather_label <$> codes) = len df.
Proof.
  intros Hrun.
  apply get_meteo_data_Some_inv in Hrun
    as (_ & marine_res & weather_res & index & _ & _ & Ht & Hall & ->).
  eexists. split; [reflexivity|]. split; [reflexivity|].
  rewrite length_fmap. cbn [len merged_table forecast_columns app series_length].
  rewrite (to_datetime_length _ _ Ht).
  by apply (Forall_lookup_1 _ _ 4%nat _ Hall).
Qed.

End More.

(** ** The spot registry *)

Section RegistryFacts.
Context `{Platform}.

Lemma take_column_elem (t : spot_table) name c others :
  take_column t name = Some (c, others) →
  (name, c) ∈ t ∧ others ⊆ t ∧ (∀ n, n ∈ others.*1 → n ∈ t.*1).
Proof.
  revert c others. induction t as [|[n col] t IH]; intros c others; [done|].
  simpl. destruct (decide (n = name)) as [->|Hne].
  - intros [= -> ->]. split; [left|]. split.
    + intros x Hx. by right.
    + intros x Hx. simpl. by right.
  - destruct (take_column t name) as [[found rest]|]; [|done]. simpl.
    intros [= -> <-]. destruct (IH _ _ eq_refl) as (Hin & Hsub & Hnames).
    split; [by right|]. split.
    + intros x [->|Hx]%elem_of_cons; [left|right; by apply Hsub].
    + intros x. simpl. intros [->|Hx]%elem_of_cons; [left|right; by apply Hnames].
Qed.

(** When [load_spots] returns, it returns what [to_dict("index")] built
    from a table with a [name] column free of repetitions. *)
Lemma load_spots_Done env s s' (DIVING_SPOTS : spots) :
  load_spots env s = (Done DIVING_SPOTS, s') →
  s' = s
  ∧ ∃ t names others,
      read_csv env = Ok t
      ∧ take_column t "name" = Some (names, others)
      ∧ NoDup names
      ∧ DIVING_SPOTS
        = imap (λ i name, (name, (λ c, (c.1, c.2 !!! i)) <$> others)) names.
Proof.
  intros Hload.
  destruct (df ← read_csv env; indexed ← set_index df "name"; to_dict_index indexed)
    as [built|e] eqn:Hbuilt.
  2:{ rewrite (load_spots_Raise env s e Hbuilt) in Hload. discriminate Hload. }
  assert (load_spots env s = (Done built, s)) as Hdone.
  { unfold load_spots, try_except, lift. by rewrite Hbuilt. }
  rewrite Hdone in Hload. injection Hload as -> <-. split; [done|].
  revert Hbuilt.
  destruct (read_csv env) as [t|e]; result_step; [|intros Hx; discriminate Hx].
  unfold set_index.
  destruct (take_column t "name") as [[names others]|] eqn:Htake; result_step;
    [|intros Hx; discriminate Hx].
  unfold to_dict_index, is_unique. cbn [index data].
  destruct (bool_decide (NoDup names)) eqn:Hnodup; [|intros Hx; discriminate Hx].
  intros [= <-]. exists t, names, others.
  apply bool_decide_eq_true in Hnodup. by repeat split.
Qed.

Lemma imap_keys {A B} (g : nat → A → B) (names : list A) :
  (imap (λ i name, (name, g i name)) names).*1 = names.
Proof.
  revert g. induction names as [|n names IH]; intros g; [done|].
  rewrite imap_cons. cbn [fmap list_fmap fst]. f_equal. apply (IH (g ∘ S)).
Qed.

Lemma spots_getitem_imap (g : nat → list (string * cell)) (names : list cell) i name :
  NoDup names → names !! i = Some name →
  spots_getitem (imap (λ j n, (n, g j)) names) (Some name) = Ok (g i).
Proof.
  revert g i. induction names as [|n names IH]; intros g i Hnodup Hi; [done|].
  apply NoDup_cons in Hnodup as [Hn Hnodup].
  rewrite imap_cons. cbn [spots_getitem]. destruct i as [|i].
  - injection Hi as ->. by rewrite decide_True.
  - simpl in Hi. rewrite decide_False.
    + apply (IH (g ∘ S) i Hnodup Hi).
    + intros [= ->]. apply Hn. by eapply list_elem_of_lookup_2.
Qed.

Lemma coords_getitem_fmap (f : list cell → cell) (others : spot_table) k c cells :
  NoDup others.*1 → others !! k = Some (c, cells) →
  coords_getitem ((λ col, (col.1, f col.2)) <$> others) c = Ok (f cells).
Proof.
  revert k. induction others as [|[n col] others IH]; intros k Hnodup Hk; [done|].
  simpl in Hnodup. apply NoDup_cons in Hnodup as [Hn Hnodup].
  rewrite fmap_cons. cbn [coords_getitem fst snd]. destruct k as [|k].
  - injection Hk as -> ->. by rewrite decide_True.
  - simpl in Hk. rewrite decide_False.
    + by apply (IH k).
    + intros ->. apply Hn. apply (list_elem_of_fmap_2 fst _ (c, cells)).
      by eapply list_elem_of_lookup_2.
Qed.

Lemma coords_getitem_absent (f : list cell → cell) (others : spot_table) c :
  c ∉ others.*1 →
  coords_getitem ((λ col, (col.1, f col.2)) <$> others) c = Raise (KeyError c).
Proof.
  induction others as [|[n col] others IH]; [done|]. simpl.
  intros [Hne Hc]%not_elem_of_cons. rewrite decide_False by done. by apply IH.
Qed.

(** X8. The registry gives back the file: for a file with distinct column
    names, looking up the name of line [i] and then the column [c] returns
    the cell of column [c] on line [i]. *)
Theorem registry_lookup_roundtrip env s (DIVING_SPOTS : spots)
    t names others i name k c cells v :
  load_spots env s = (Done DIVING_SPOTS, s) →
  read_csv env = Ok t →
  take_column t "name" = Some (names, others) →
  NoDup others.*1 →
  names !! i = Some name →
  others !! k = Some (c, cells) →
  cells !! i = Some v →
  (spots_getitem DIVING_SPOTS (Some name) ≫= λ coords, coords_getitem coords c) = Ok v.
Proof.
  intros Hload Hcsv Htake Hcols Hi Hk Hv.
  apply load_spots_Done in Hload as (_ & t' & names' & others' & Hcsv' & Htake' & Hnodup & ->).
  rewrite Hcsv in Hcsv'. injection Hcsv' as <-.
  rewrite Htake in Htake'. injection Htake' as <- <-.
  rewrite (spots_getitem_imap (λ j, (λ c, (c.1, c.2 !!! j)) <$> others) names i name Hnodup Hi).
  result_step.
  rewrite (coords_getitem_fmap (λ col, col !!! i) others k c cells Hcols Hk).
  f_equal. by apply list_lookup_total_correct.
Qed.

End RegistryFacts.

(** ** The page *)

Section PageFacts.
Context `{Platform}.

Lemma drawn_drawn (s : state) ws1 ws2 : drawn (drawn s ws1) ws2 = drawn s (ws1 ++ ws2).
Proof. unfold drawn. simpl. by rewrite app_assoc. Qed.

Lemma drawn_nil (s : state) : drawn s [] = s.
Proof. destruct s. unfold drawn. simpl. by rewrite app_nil_r. Qed.

Lemma bind_Done {A B} (m : M A) (k : A → M B) s a s' :
  m s = (Done a, s') → (m ≫= k) s = k a s'.
Proof. unfold mbind, M_bind, bind. by intros ->. Qed.

Lemma bind_Failed {A B} (m : M A) (k : A → M B) s e s' :
  m s = (Failed e, s') → (m ≫= k) s = (Failed e, s').
Proof. unfold mbind, M_bind, bind. by intros ->. Qed.

Lemma bind_Stopped {A B} (m : M A) (k : A → M B) s s' :
  m s = (Stopped, s') → (m ≫= k) s = (Stopped, s').
Proof. unfold mbind, M_bind, bind. by intros ->. Qed.

Lemma show_run w (s : state) : show w s = (Done (), drawn s [w]).
Proof. reflexivity. Qed.

Lemma lift_Ok {A} (a : A) (s : state) : lift (Ok a) s = (Done a, s).
Proof. reflexivity. Qed.

Lemma lift_Raise {A} e (s : state) : lift (@Raise A e) s = (Failed e, s).
Proof. reflexivity. Qed.

(** [inputs] draws its widgets and returns what the user chose. *)
Lemma inputs_run env (DIVING_SPOTS : spots) s :
  inputs env DIVING_SPOTS s
  = (Done (DIVING_SPOTS.*1 !! chosen_spot env, chosen_date env, start_btn env),
     drawn s (input_widgets env DIVING_SPOTS)).
Proof.
  unfold inputs, input_widgets.
  repeat (erewrite bind_Done; [|apply show_run]; rewrite ?drawn_drawn).
  destruct (bool_decide _).
  - repeat (erewrite bind_Done; [|apply show_run]; rewrite ?drawn_drawn). reflexivity.
  - erewrite bind_Done; [|reflexivity].
    repeat (erewrite bind_Done; [|apply show_run]; rewrite ?drawn_drawn). reflexivity.
Qed.

Lemma get_meteo_data_outcome env lat lon date s :
  get_meteo_data env lat lon date s
  = (Done (fetch_outcome env lat lon date s).1, (fetch_outcome env lat lon date s).2).
Proof.
  rewrite get_meteo_data_merge. unfold fetch_outcome, fetched.
  by destruct (_ ≫= _).
Qed.

Lemma search_marine_life_outcome env location date s :
  search_marine_life env location date s
  = (Done (summary_outcome env location date s).1,
     (summary_outcome env location date s).2).
Proof.
  rewrite search_marine_life_summarize. unfold summary_outcome.
  by destruct (summarize _ _ _).
Qed.

Lemma main_processing_run env (DIVING_SPOTS : spots) selected date s coords lat lon :
  spots_getitem DIVING_SPOTS selected = Ok coords →
  coords_getitem coords "lat" = Ok lat →
  coords_getitem coords "lon" = Ok lon →
  main_processing env DIVING_SPOTS selected date s
  = (Done (),
     State (page (summary_outcome env selected date
                    (fetch_outcome env lat lon date s).2).2)
           (Some (DisplayData selected date
                    (fetch_outcome env lat lon date s).1
                    (summary_outcome env selected date
                       (fetch_outcome env lat lon date s).2).1))).
Proof.
  intros Hcoords Hlat Hlon. unfold main_processing.
  rewrite Hcoords. erewrite bind_Done; [|apply lift_Ok].
  rewrite Hlat. erewrite bind_Done; [|apply lift_Ok].
  rewrite Hlon. erewrite bind_Done; [|apply lift_Ok].
  erewrite bind_Done; [|apply get_meteo_data_outcome].
  erewrite bind_Done; [|apply search_marine_life_outcome].
  reflexivity.
Qed.


Lemma fetched_Ok env lat lon date df :
  fetched env lat lon date = Ok df →
  ∃ marine_res weather_res,
    marine_api (open_meteo env) (marine_params lat lon date) = Ok marine_res
    ∧ forecast_api (open_meteo env) (forecast_params lat lon date) = Ok weather_res
    ∧ merge_responses marine_res weather_res = Ok df.
Proof.
  unfold fetched.
  destruct (marine_api _ _) as [marine_res|e]; [|intros Hx; discriminate Hx].
  destruct (forecast_api _ _) as [weather_res|e]; [|intros Hx; discriminate Hx].
  intros Hmerge. by exists marine_res, weather_res.
Qed.

Lemma get_meteo_data_Some env lat lon date s df s' :
  get_meteo_data env lat lon date s = (Done (Some df), s') →
  s' = s ∧ fetched env lat lon date = Ok df.
Proof.
  rewrite get_meteo_data_outcome. unfold fetch_outcome.
  destruct (fetched env lat lon date) as [df'|e]; simpl.
  - by intros [= -> ->].
  - intros Hx. discriminate Hx.
Qed.

(** A row of a merged table has the eleven fields of the table. *)
Lemma merged_row marine_res weather_res df i r :
  merge_responses marine_res weather_res = Ok df →
  row_at df i = Some r →
  ∃ time temperature rain wind_speed wind_direction code wave wave_direction
      period swell weather,
    r = [ ("time", time); ("気温(°C)", temperature); ("降水量(mm)", rain);
          ("風速(km/h)", wind_speed); ("風向(°)", wind_direction);
          ("天気コード", code); ("波高(m)", wave); ("波向(°)", wave_direction);
          ("波の強さ/周期(s)", period); ("うねり高(m)", swell); ("天気", weather) ].
Proof.
  intros Hmerge Hrow. apply merge_Ok in Hmerge as (index & _ & _ & ->).
  unfold row_at in Hrow. apply mapM_Some_1 in Hrow.
  unfold forecast_columns in Hrow. cbn [app] in Hrow.
  repeat (apply Forall2_cons_inv_l in Hrow as (? & ? & [? [_ ->]]%fmap_Some & Hrow & ->)).
  apply Forall2_nil_inv_l in Hrow as ->. cbn [fst].
  by repeat eexists.
Qed.

(** X12. A table returned by [get_meteo_data] that has at least one row is
    displayed without error: the four metrics show the fields of the
    midday row, followed by the two charts. *)
Theorem display_forecast_draws env lat lon date s0 s0' df s :
  get_meteo_data env lat lon date s0 = (Done (Some df), s0') →
  len df ≠ 0%nat →
  ∃ r weather temperature wind_speed wind_direction wave period,
    midday_data df = Ok r
    ∧ field r "天気" = Ok weather
    ∧ field r "気温(°C)" = Ok temperature
    ∧ field r "風速(km/h)" = Ok wind_speed
    ∧ field r "風向(°)" = Ok wind_direction
    ∧ field r "波高(m)" = Ok wave
    ∧ field r "波の強さ/周期(s)" = Ok period
    ∧ display_forecast df s
      = (Done (),
         drawn s (forecast_widgets df weather temperature wind_speed
                                   wind_direction wave period)).
Proof.
  intros Hfetch Hrows.
  apply get_meteo_data_Some in Hfetch as [_ Hfetch].
  apply fetched_Ok in Hfetch as (marine_res & weather_res & _ & _ & Hmerge).
  destruct (merge_forecast_table _ _ _ Hmerge) as (index & _ & _ & Hdf).
  pose proof (forecast_table_len _ _ Hdf) as [Hlen _].
  assert (index ≠ []) as Hne. { intros ->. by apply Hrows. }
  destruct (midday_data_representative df index Hdf Hne) as (r & Hr & Hrow).
  destruct (merged_row _ _ _ _ _ Hmerge Hrow)
    as (time & temperature & rain & wind_speed & wind_direction & code & wave
        & wave_direction & period & swell & weather & ->).
  eexists _, weather, temperature, wind_speed, wind_direction, wave, period.
  split; [exact Hr|]. repeat (split; [reflexivity|]).
  unfold display_forecast. rewrite Hr.
  erewrite bind_Done; [|apply lift_Ok].
  repeat (first [ erewrite bind_Done; [|apply show_run]
                | erewrite bind_Done; [|apply lift_Ok] ];
          rewrite ?drawn_drawn).
  rewrite show_run, drawn_drawn. reflexivity.
Qed.

(** X13. On a forecast table without rows the display fails with
    [IndexError] before drawing any metric, and [display] stops after the
    header: the marine-life part is not drawn. *)
Theorem display_forecast_no_rows df s data :
  forecast_table df [] →
  midday_data df = Raise IndexError
  ∧ display_forecast df s = (Failed IndexError, s)
  ∧ (dd_df data = Some df →
     display data s = (Failed IndexError, drawn s [forecast_header data])).
Proof.
  intros Hdf. pose proof (forecast_table_len _ _ Hdf) as [Hlen Hdf0].
  destruct Hdf as [Hcol Hall].
  assert (midday_data df = Raise IndexError) as Hmid.
  { unfold midday_data. rewrite Hcol. result_step. unfold hour_is. result_step.
    rewrite fmap_nil.
    assert (df_empty (df_select [] df) = true) as ->.
    { destruct df as [|[n c] df]; [done|]. by destruct c. }
    cbn [negb]. unfold iloc. rewrite Hlen. reflexivity. }
  assert (∀ s', display_forecast df s' = (Failed IndexError, s')) as Hshow.
  { intros s'. unfold display_forecast. rewrite Hmid. reflexivity. }
  split; [done|]. split; [done|].
  intros Hdata. unfold display. rewrite Hdata.
  erewrite bind_Done; [|apply show_run].
  erewrite bind_Failed; [reflexivity|]. apply Hshow.
Qed.

End PageFacts.

(** ** The script as a whole *)

Lemma contents_missing (hits : list search_hit) k :
  hits !! k = Some (SearchHit None) → contents hits = Raise (KeyError "content").
Proof.
  revert k. induction hits as [|[c] hits IH]; intros k Hk; [done|].
  destruct k as [|k].
  - by injection Hk as ->.
  - simpl in Hk. simpl. destruct c; [|done]. by rewrite (IH k Hk).
Qed.


Section ScriptFacts.
Context `{Platform}.

(** X6. A search answer out of shape is handled like a provider failure:
    without a [results] key, or with a hit that has no [content], or when
    reading the generated text raises, [search_marine_life] shows the error
    box and returns the fallback text. *)
Theorem search_marine_life_malformed_answer env location date s search_result :
  tavily_search env (query_of (from_option str_cell "None" location) (month date))
  = Ok search_result →
  (results search_result = None →
   search_marine_life env location date s
   = (Done fallback_text, search_failed s location date (KeyError "results")))
  ∧ (∀ hits k,
       results search_result = Some hits → hits !! k = Some (SearchHit None) →
       search_marine_life env location date s
       = (Done fallback_text, search_failed s location date (KeyError "content")))
  ∧ (∀ hits context response e,
       results search_result = Some hits → context_of hits = Ok context →
       generate_content env
         (prompt_of (from_option str_cell "None" location) (month date) context)
       = Ok response →
       response_text response = Raise e →
       search_marine_life env location date s
       = (Done fallback_text, search_failed s location date e)).
Proof.
  intros Hs. rewrite search_marine_life_summarize. unfold summarize. rewrite Hs.
  result_step. split; [|split].
  - by intros ->.
  - intros hits k -> Hk. simpl from_option; cbv beta iota.
    unfold context_of. by rewrite (contents_missing _ _ Hk).
  - intros hits context response e -> Hc Hg Ht. simpl from_option; cbv beta iota.
    rewrite Hc. result_step. rewrite Hg. result_step. by rewrite Ht.
Qed.

Lemma startup_run env s :
  startup env s
  = match load_secrets env (drawn s [PageConfig]) with
    | (Done _, s1) => load_spots env s1
    | (Failed e, s1) => (Failed e, s1)
    | (Stopped, s1) => (Stopped, s1)
    end.
Proof. reflexivity. Qed.

Lemma script_after_startup env s :
  script env s
  = match startup env s with
    | (Done DIVING_SPOTS, s1) => after_startup env DIVING_SPOTS s1
    | (Failed e, s1) => (Failed e, s1)
    | (Stopped, s1) => (Stopped, s1)
    end.
Proof. reflexivity. Qed.

Lemma display_without_table data s :
  dd_df data = None →
  display data s = (Done (), drawn s (forecast_header data :: bio_widgets data)).
Proof.
  intros Hdata. unfold display. rewrite Hdata.
  repeat (first [ erewrite bind_Done; [|apply show_run]
                | erewrite bind_Done; [|reflexivity] ];
          rewrite ?drawn_drawn).
  rewrite show_run, drawn_drawn. reflexivity.
Qed.

Lemma display_with_table data df s ws :
  dd_df data = Some df →
  (∀ s', display_forecast df s' = (Done (), drawn s' ws)) →
  display data s
  = (Done (), drawn s (forecast_header data :: ws ++ bio_widgets data)).
Proof.
  intros Hdata Hshow. unfold display. rewrite Hdata.
  erewrite bind_Done; [|apply show_run].
  erewrite bind_Done; [|apply Hshow]. rewrite drawn_drawn.
  repeat (erewrite bind_Done; [|apply show_run]; rewrite ?drawn_drawn).
  rewrite show_run, drawn_drawn. unfold bio_widgets.
  by rewrite <-!app_assoc.
Qed.

(** After start-up, without the button, the script only redraws. *)
Lemma after_startup_idle env (DIVING_SPOTS : spots) s :
  start_btn env = false →
  after_startup env DIVING_SPOTS s
  = match session s with
    | Some data => display data (drawn s (input_widgets env DIVING_SPOTS))
    | None => (Done (), drawn s (input_widgets env DIVING_SPOTS))
    end.
Proof.
  intros Hbtn. unfold after_startup.
  erewrite bind_Done; [|apply inputs_run]. rewrite Hbtn.
  erewrite bind_Done; [|reflexivity].
  erewrite bind_Done; [|reflexivity].
  cbn [session drawn]. by destruct (session s).
Qed.

(** X15. A rerun without the button makes no request: two worlds that
    agree on the secrets, the spot file, the dates and the selection give
    the same run, whatever their endpoints and providers answer. *)
Theorem rerun_makes_no_request env1 env2 session0 :
  secrets env1 = secrets env2 →
  read_csv env1 = read_csv env2 →
  today env1 = today env2 →
  chosen_spot env1 = chosen_spot env2 →
  chosen_date env1 = chosen_date env2 →
  start_btn env1 = false →
  start_btn env2 = false →
  run env1 session0 = run env2 session0.
Proof.
  intros Hsecrets Hcsv Htoday Hspot Hdate Hbtn1 Hbtn2.
  unfold run. rewrite !script_after_startup.
  assert (startup env1 (State [] session0) = startup env2 (State [] session0)) as ->.
  { rewrite !startup_run. unfold load_secrets, load_spots.
    by rewrite Hsecrets, Hcsv. }
  destruct (startup env2 _) as [[DIVING_SPOTS|e|] s1]; [|done..].
  rewrite !after_startup_idle by done.
  assert (input_widgets env1 DIVING_SPOTS = input_widgets env2 DIVING_SPOTS) as ->.
  { unfold input_widgets. by rewrite Htoday, Hdate. }
  done.
Qed.


Lemma take_column_keeps (t : spot_table) name c others n :
  take_column t name = Some (c, others) → n ∈ t.*1 → n ≠ name → n ∈ others.*1.
Proof.
  revert c others. induction t as [|[m col] t IH]; intros c others; [done|].
  simpl. destruct (decide (m = name)) as [->|Hne].
  - intros [= -> ->] [->|Hn]%elem_of_cons Hneq; done.
  - destruct (take_column t name) as [[found rest]|]; [|done]. simpl.
    intros [= -> <-] [->|Hn]%elem_of_cons Hneq; simpl; [left|right].
    by eapply IH.
Qed.

Lemma coords_getitem_present (f : list cell → cell) (others : spot_table) c :
  c ∈ others.*1 →
  ∃ v, coords_getitem ((λ col, (col.1, f col.2)) <$> others) c = Ok v.
Proof.
  induction others as [|[n col] others IH]; simpl.
  - by intros ?%elem_of_nil.
  - intros Hc. destruct (decide (n = c)) as [->|Hne]; [by eexists|].
    apply elem_of_cons in Hc as [->|Hc]; [done|]. by apply IH.
Qed.

Lemma row_keys (others : spot_table) i :
  ((λ c : string * list cell, (c.1, c.2 !!! i)) <$> others).*1 = others.*1.
Proof.
  induction others as [|[n col] others IH]; [done|].
  rewrite !fmap_cons. cbn [fst]. f_equal. exact IH.
Qed.

(** X7. When [load_spots] returns, the page and the session are as before,
    the keys of [DIVING_SPOTS] are the [name] column of the file, in file
    order and without repetition, and every entry has the other columns of
    the file as its keys. *)
Theorem load_spots_registry env s s' (DIVING_SPOTS : spots) :
  load_spots env s = (Done DIVING_SPOTS, s') →
  s' = s
  ∧ NoDup DIVING_SPOTS.*1
  ∧ ∃ t others,
      read_csv env = Ok t
      ∧ take_column t "name" = Some (DIVING_SPOTS.*1, others)
      ∧ ("name", DIVING_SPOTS.*1) ∈ t
      ∧ Forall (λ entry, entry.2.*1 = others.*1) DIVING_SPOTS.
Proof.
  intros Hload.
  apply load_spots_Done in Hload as (-> & t & names & others & Hcsv & Htake & Hnodup & ->).
  rewrite imap_keys. split; [done|]. split; [done|].
  exists t, others. split; [done|]. split; [done|].
  split; [by apply take_column_elem in Htake as [? _]|].
  apply Forall_forall. intros entry Hentry.
  apply elem_of_lookup_imap_1 in Hentry as (i & name & -> & _).
  apply row_keys.
Qed.

(** X9. A spot file with a [name] column and no line loads as an empty
    registry; the select box then has nothing to offer, and pressing the
    button ends the run with [KeyError] at the registry lookup, after the
    input widgets were drawn. *)
Theorem empty_spot_file env s t others :
  read_csv env = Ok t →
  take_column t "name" = Some ([], others) →
  load_spots env s = (Done [], s)
  ∧ (start_btn env = true →
     after_startup env [] s
     = (Failed (KeyError "None"), drawn s (input_widgets env []))).
Proof.
  intros Hcsv Htake. split.
  - unfold load_spots, try_except, lift, set_index. rewrite Hcsv. result_step.
    rewrite Htake. reflexivity.
  - intros Hbtn. unfold after_startup.
    erewrite bind_Done; [|apply inputs_run]. rewrite Hbtn. reflexivity.
Qed.

(** The registry finds every name of the file, with the other columns
    of its line. *)
Lemma registry_finds env s (DIVING_SPOTS : spots) t names others name :
  load_spots env s = (Done DIVING_SPOTS, s) →
  read_csv env = Ok t →
  take_column t "name" = Some (names, others) →
  name ∈ names →
  ∃ i, spots_getitem DIVING_SPOTS (Some name)
       = Ok ((λ c : string * list cell, (c.1, c.2 !!! i)) <$> others).
Proof.
  intros Hload Hcsv Htake Hname.
  apply load_spots_Done in Hload
    as (_ & t' & names' & others' & Hcsv' & Htake' & Hnodup & ->).
  rewrite Hcsv in Hcsv'. injection Hcsv' as <-.
  rewrite Htake in Htake'. injection Htake' as <- <-.
  apply list_elem_of_lookup_1 in Hname as [i Hi]. exists i.
  by apply (spots_getitem_imap (λ j, (λ c, (c.1, c.2 !!! j)) <$> others)).
Qed.

(** X10. With a spot file that has no [lat] column, pressing the button
    fails with [KeyError] for every listed spot, before any request is
    made and with the page and session untouched; likewise for [lon] when
    only that column is missing. *)
Theorem missing_coordinate_column env s (DIVING_SPOTS : spots) t names others
    name date s1 :
  load_spots env s = (Done DIVING_SPOTS, s) →
  read_csv env = Ok t →
  take_column t "name" = Some (names, others) →
  name ∈ names →
  ("lat" ∉ t.*1 →
   main_processing env DIVING_SPOTS (Some name) date s1
   = (Failed (KeyError "lat"), s1))
  ∧ ("lat" ∈ t.*1 → "lon" ∉ t.*1 →
     main_processing env DIVING_SPOTS (Some name) date s1
     = (Failed (KeyError "lon"), s1)).
Proof.
  intros Hload Hcsv Htake Hname.
  destruct (registry_finds _ _ _ _ _ _ _ Hload Hcsv Htake Hname) as [i Hcoords].
  pose proof (take_column_elem _ _ _ _ Htake) as (_ & _ & Hsub).
  unfold main_processing. rewrite Hcoords.
  erewrite bind_Done; [|apply lift_Ok]. split.
  - intros Hlat. rewrite (coords_getitem_absent _ _ "lat"); [reflexivity|].
    intros Hin. by apply Hlat, Hsub.
  - intros Hlat Hlon.
    destruct (coords_getitem_present (λ col, col !!! i) others "lat") as [lat ->].
    { by eapply take_column_keeps. }
    erewrite bind_Done; [|apply lift_Ok].
    rewrite (coords_getitem_absent _ _ "lon"); [reflexivity|].
    intros Hin. by apply Hlon, Hsub.
Qed.

(** X11. With a spot file that has [lat] and [lon] columns, the main
    processing completes for every listed spot, whatever the endpoints and
    providers do, and replaces the session by the spot, the date, what
    [get_meteo_data] returned and what [search_marine_life] returned. *)
Theorem listed_spot_always_completes env s (DIVING_SPOTS : spots) t names others
    name date s0 :
  load_spots env s = (Done DIVING_SPOTS, s) →
  read_csv env = Ok t →
  take_column t "name" = Some (names, others) →
  "lat" ∈ t.*1 → "lon" ∈ t.*1 →
  name ∈ names →
  ∃ lat lon df s1 bio s2,
    get_meteo_data env lat lon date s0 = (Done df, s1)
    ∧ search_marine_life env (Some name) date s1 = (Done bio, s2)
    ∧ main_processing env DIVING_SPOTS (Some name) date s0
      = (Done (), State (page s2) (Some (DisplayData (Some name) date df bio))).
Proof.
  intros Hload Hcsv Htake Hlat Hlon Hname.
  destruct (registry_finds _ _ _ _ _ _ _ Hload Hcsv Htake Hname) as [i Hcoords].
  destruct (coords_getitem_present (λ col, col !!! i) others "lat") as [lat Hlat'].
  { by eapply take_column_keeps. }
  destruct (coords_getitem_present (λ col, col !!! i) others "lon") as [lon Hlon'].
  { by eapply take_column_keeps. }
  exists lat, lon. eexists _, _, _, _.
  split; [apply get_meteo_data_outcome|].
  split; [apply search_marine_life_outcome|].
  by eapply main_processing_run.
Qed.

(** X14. A failed fetch does not block the marine-life part: when the
    button is pressed for a spot with coordinates and the fetch raises,
    the script after start-up completes, the page ends with the header
    and the marine-life widgets, and the session holds the result
    without a table. *)
Theorem failed_fetch_still_shows_summary env (DIVING_SPOTS : spots) s name coords
    lat lon e :
  start_btn env = true →
  DIVING_SPOTS.*1 !! chosen_spot env = Some name →
  spots_getitem DIVING_SPOTS (Some name) = Ok coords →
  coords_getitem coords "lat" = Ok lat →
  coords_getitem coords "lon" = Ok lon →
  fetched env lat lon (chosen_date env) = Raise e →
  let s1 := fetch_failed (drawn s (input_widgets env DIVING_SPOTS)) e in
  let summary := summary_outcome env (Some name) (chosen_date env) s1 in
  let data := DisplayData (Some name) (chosen_date env) None summary.1 in
  after_startup env DIVING_SPOTS s
  = (Done (),
     State (page summary.2 ++ forecast_header data :: bio_widgets data)
           (Some data)).
Proof.
  intros Hbtn Hsel Hcoords Hlat Hlon Hfetch s1 summary data.
  unfold after_startup.
  erewrite bind_Done; [|apply inputs_run]. rewrite Hbtn, Hsel.
  erewrite bind_Done; [|by eapply main_processing_run].
  erewrite bind_Done; [|reflexivity].
  unfold fetch_outcome. rewrite Hfetch. cbn [fst snd session].
  by rewrite display_without_table.
Qed.

End ScriptFacts.

(** ** What a run leaves alone *)

Section FrameFacts.
Context `{Platform}.

Lemma only_draws_mret {A} (a : A) : only_draws (mret a).
Proof. intros s o s' [= <- <-]. split; [done|]. exists []. by rewrite app_nil_r. Qed.

Lemma only_draws_show w : only_draws (show w).
Proof. intros s o s' [= <- <-]. split; [done|]. by exists [w]. Qed.

Lemma only_draws_lift {A} (r : result A) : only_draws (lift r).
Proof.
  intros s o s'. destruct r; intros [= <- <-]; (split; [done|]);
    exists []; by rewrite app_nil_r.
Qed.

Lemma only_draws_stop {A} : only_draws (@st_stop _ A).
Proof. intros s o s' [= <- <-]. split; [done|]. exists []. by rewrite app_nil_r. Qed.

Lemma only_draws_get_session : only_draws get_session.
Proof. intros s o s' [= <- <-]. split; [done|]. exists []. by rewrite app_nil_r. Qed.

Lemma only_draws_bind {A B} (m : M A) (k : A → M B) :
  only_draws m → (∀ a, only_draws (k a)) → only_draws (m ≫= k).
Proof.
  intros Hm Hk s o s'. unfold mbind, M_bind, bind.
  destruct (m s) as [[a|e|] s1] eqn:Hms; destruct (Hm _ _ _ Hms) as [Hs [ws Hp]].
  - intros Hks. destruct (Hk a _ _ _ Hks) as [Hs' [ws' Hp']].
    split; [congruence|]. exists (ws ++ ws'). by rewrite Hp', Hp, app_assoc.
  - intros [= <- <-]. split; [done|]. by exists ws.
  - intros [= <- <-]. split; [done|]. by exists ws.
Qed.

Lemma only_draws_try {A} caught (body : M A) handler :
  only_draws body → (∀ e, only_draws (handler e)) →
  only_draws (try_except caught body handler).
Proof.
  intros Hb Hh s o s'. unfold try_except.
  destruct (body s) as [[a|e|] s1] eqn:Hbs; destruct (Hb _ _ _ Hbs) as [Hs [ws Hp]].
  - intros [= <- <-]. split; [done|]. by exists ws.
  - destruct (caught e).
    + intros Hhs. destruct (Hh e _ _ _ Hhs) as [Hs' [ws' Hp']].
      split; [congruence|]. exists (ws ++ ws'). by rewrite Hp', Hp, app_assoc.
    + intros [= <- <-]. split; [done|]. by exists ws.
  - intros [= <- <-]. split; [done|]. by exists ws.
Qed.

Ltac frame :=
  repeat lazymatch goal with
  | |- only_draws (_ ≫= _) => apply only_draws_bind; [|intros ?]
  | |- only_draws (try_except _ _ _) => apply only_draws_try; [|intros ?]
  | |- only_draws (show _) => apply only_draws_show
  | |- only_draws (st_error _) => apply only_draws_show
  | |- only_draws (lift _) => apply only_draws_lift
  | |- only_draws (mret _) => apply only_draws_mret
  | |- only_draws (ret _) => apply only_draws_mret
  | |- only_draws st_stop => apply only_draws_stop
  | |- only_draws get_session => apply only_draws_get_session
  | |- only_draws (match ?x with _ => _ end) => destruct x
  end.

Lemma only_draws_startup env : only_draws (startup env).
Proof. unfold startup, load_secrets, load_spots. frame. Qed.

Lemma only_draws_inputs env sp : only_draws (inputs env sp).
Proof. unfold inputs. cbv zeta. frame. Qed.

Lemma only_draws_get_meteo_data env lat lon date :
  only_draws (get_meteo_data env lat lon date).
Proof. unfold get_meteo_data. cbv zeta. frame. Qed.

Lemma only_draws_search_marine_life env location date :
  only_draws (search_marine_life env location date).
Proof. unfold search_marine_life. cbv zeta. frame. Qed.

Lemma only_draws_display data : only_draws (display data).
Proof. unfold display, display_forecast. frame. Qed.

Lemma only_draws_bind_Done {A B} (m : M A) (k : A → M B) :
  only_draws m → (∀ a s s', m s = (Done a, s') → only_draws (k a)) →
  only_draws (m ≫= k).
Proof.
  intros Hm Hk s o s'. unfold mbind, M_bind, bind.
  destruct (m s) as [[a|e|] s1] eqn:Hms; destruct (Hm _ _ _ Hms) as [Hs [ws Hp]].
  - intros Hks. destruct (Hk a _ _ Hms _ _ _ Hks) as [Hs' [ws' Hp']].
    split; [congruence|]. exists (ws ++ ws'). by rewrite Hp', Hp, app_assoc.
  - intros [= <- <-]. split; [done|]. by exists ws.
  - intros [= <- <-]. split; [done|]. by exists ws.
Qed.

(** X16. Without the button the script never changes the session: from
    any state it only adds widgets to the page. *)
Theorem idle_script_only_draws env :
  start_btn env = false → only_draws (script env).
Proof.
  intros Hbtn. unfold script.
  apply only_draws_bind; [apply only_draws_startup|]. intros DIVING_SPOTS.
  apply only_draws_bind_Done; [apply only_draws_inputs|].
  intros [[selected date] pressed] s s' Hinputs.
  rewrite inputs_run in Hinputs. injection Hinputs as _ _ <- _. rewrite Hbtn.
  apply only_draws_bind; [apply only_draws_mret|]. intros _.
  apply only_draws_bind; [apply only_draws_get_session|]. intros [data|].
  - apply only_draws_display.
  - apply only_draws_mret.
Qed.

(** X17. [get_meteo_data] and [search_marine_life] have no effect on the
    session: they only add their error box or spinner to the page. *)
Theorem fetch_and_summarize_only_draw env lat lon location date :
  only_draws (get_meteo_data env lat lon date)
  ∧ only_draws (search_marine_life env location date).
Proof.
  split; [apply only_draws_get_meteo_data|apply only_draws_search_marine_life].
Qed.

End FrameFacts.

(** ** These properties at work *)

Lemma weather_label_inj_witness :
  weather_label 2 = weather_label (1 + 1) ∧ 2 = 1 + 1.
Proof. split; [reflexivity|]. apply (weather_label_inj 2 (1 + 1)). reflexivity. Defined.

Lemma get_meteo_data_table_iff_witness :
  get_meteo_data (demo_world noon_marine noon_weather) demo_lat demo_lon demo_date blank
  = (Done (Some noon_table), blank).
Proof.
  apply (proj2 (get_meteo_data_table_iff (demo_world noon_marine noon_weather)
                  demo_lat demo_lon demo_date blank noon_table)).
  exists noon_marine, noon_weather, (axis_of noon_marine).
  split; [reflexivity|]. split; [reflexivity|]. split; [reflexivity|].
  split; [repeat constructor|reflexivity].
Defined.

Lemma get_meteo_data_request_fails_witness :
  get_meteo_data world_marine_down demo_lat demo_lon demo_date blank
  = (Done None, fetch_failed blank RequestException)
  ∧ get_meteo_data world_forecast_down demo_lat demo_lon demo_date blank
    = (Done None, fetch_failed blank JSONDecodeError).
Proof.
  split.
  - apply (proj1 (get_meteo_data_request_fails world_marine_down
                    demo_lat demo_lon demo_date blank RequestException)).
    reflexivity.
  - apply (proj1 (proj2 (get_meteo_data_request_fails world_forecast_down
                    demo_lat demo_lon demo_date blank JSONDecodeError)) noon_marine);
      reflexivity.
Defined.

Lemma get_meteo_data_error_bodies_witness :
  ∃ df, get_meteo_data (demo_world no_hourly_marine no_hourly_weather)
          demo_lat demo_lon demo_date blank = (Done (Some df), blank)
        ∧ forecast_table df []
        ∧ len df = 0%nat.
Proof.
  apply (get_meteo_data_error_bodies (demo_world no_hourly_marine no_hourly_weather)
           demo_lat demo_lon demo_date blank no_hourly_marine no_hourly_weather);
    reflexivity.
Defined.

Lemma fetched_labels_follow_codes_witness :
  ∃ codes,
    column noon_table "天気コード" = Ok (Ints codes)
    ∧ column noon_table "天気" = Ok (Strs (weather_label <$> codes))
    ∧ length (weather_label <$> codes) = len noon_table.
Proof.
  apply (fetched_labels_follow_codes (demo_world noon_marine noon_weather)
           demo_lat demo_lon demo_date blank noon_table blank).
  reflexivity.
Defined.

Lemma search_marine_life_malformed_answer_witness :
  search_marine_life world_search_without_results (Some (Text "Spot A")) demo_date blank
  = (Done fallback_text,
     search_failed blank (Some (Text "Spot A")) demo_date (KeyError "results"))
  ∧ search_marine_life world_hit_without_content (Some (Text "Spot A")) demo_date blank
    = (Done fallback_text,
       search_failed blank (Some (Text "Spot A")) demo_date (KeyError "content")).
Proof.
  split.
  - apply (proj1 (search_marine_life_malformed_answer world_search_without_results
                    (Some (Text "Spot A")) demo_date blank (SearchResponse None) eq_refl)).
    reflexivity.
  - eapply (proj1 (proj2 (search_marine_life_malformed_answer world_hit_without_content
                    (Some (Text "Spot A")) demo_date blank _ eq_refl)) _ 1%nat);
      reflexivity.
Defined.

Lemma load_spots_registry_witness :
  load_spots (demo_world noon_marine noon_weather) blank = (Done demo_spots, blank)
  ∧ NoDup demo_spots.*1
  ∧ ("name", demo_spots.*1) ∈ demo_csv.
Proof.
  assert (load_spots (demo_world noon_marine noon_weather) blank
          = (Done demo_spots, blank)) as Hload by reflexivity.
  destruct (load_spots_registry _ _ _ _ Hload)
    as (_ & Hnodup & t & others & Hcsv & _ & Hin & _).
  injection Hcsv as <-. by split.
Defined.

Lemma registry_lookup_roundtrip_witness :
  (spots_getitem demo_spots (Some (Text "Spot B"))
     ≫= λ coords, coords_getitem coords "lat") = Ok (Number "26.2").
Proof.
  eapply (registry_lookup_roundtrip (demo_world noon_marine noon_weather) blank
            demo_spots demo_csv demo_names demo_others 1%nat (Text "Spot B")
            0%nat "lat");
    [reflexivity | reflexivity | reflexivity | | reflexivity | reflexivity | reflexivity].
  apply (bool_decide_unpack _). vm_compute. exact I.
Defined.

Lemma empty_spot_file_witness :
  load_spots world_header_only blank = (Done [], blank)
  ∧ after_startup world_header_only [] blank
    = (Failed (KeyError "None"), drawn blank (input_widgets world_header_only [])).
Proof.
  destruct (empty_spot_file world_header_only blank csv_header_only
              [("lat", []); ("lon", [])] eq_refl eq_refl) as [Hload Hrun].
  split; [exact Hload|]. apply Hrun. reflexivity.
Defined.

Lemma missing_coordinate_column_witness :
  main_processing world_without_lat [(Text "Spot A", [("lon", Number "139.0")])]
    (Some (Text "Spot A")) demo_date blank
  = (Failed (KeyError "lat"), blank).
Proof.
  eapply (proj1 (missing_coordinate_column world_without_lat blank _ csv_without_lat
                   [Text "Spot A"] _ (Text "Spot A") demo_date blank
                   eq_refl eq_refl eq_refl _)).
  apply (bool_decide_unpack _). vm_compute. exact I.
  Unshelve. apply (bool_decide_unpack _). vm_compute. exact I.
Defined.

Lemma listed_spot_always_completes_witness :
  ∃ lat lon df s1 bio s2,
    get_meteo_data world_marine_down lat lon demo_date blank = (Done df, s1)
    ∧ search_marine_life world_marine_down (Some (Text "Spot B")) demo_date s1
      = (Done bio, s2)
    ∧ main_processing world_marine_down demo_spots (Some (Text "Spot B")) demo_date blank
      = (Done (), State (page s2)
                    (Some (DisplayData (Some (Text "Spot B")) demo_date df bio))).
Proof.
  eapply (listed_spot_always_completes world_marine_down blank demo_spots demo_csv
            demo_names demo_others (Text "Spot B") demo_date blank
            eq_refl eq_refl eq_refl).
  - apply (bool_decide_unpack _). vm_compute. exact I.
  - apply (bool_decide_unpack _). vm_compute. exact I.
  - apply (bool_decide_unpack _). vm_compute. exact I.
Defined.

Lemma display_forecast_draws_witness :
  ∃ r weather temperature wind_speed wind_direction wave period,
    midday_data noon_table = Ok r
    ∧ field r "天気" = Ok weather
    ∧ field r "気温(°C)" = Ok temperature
    ∧ field r "風速(km/h)" = Ok wind_speed
    ∧ field r "風向(°)" = Ok wind_direction
    ∧ field r "波高(m)" = Ok wave
    ∧ field r "波の強さ/周期(s)" = Ok period
    ∧ display_forecast noon_table blank
      = (Done (),
         drawn blank (forecast_widgets noon_table weather temperature wind_speed
                                       wind_direction wave period)).
Proof.
  apply (display_forecast_draws (demo_world noon_marine noon_weather)
           demo_lat demo_lon demo_date blank blank noon_table blank).
  - reflexivity.
  - discriminate.
Defined.

Lemma display_forecast_no_rows_witness :
  midday_data (table_of empty_marine empty_weather) = Raise IndexError
  ∧ display_forecast (table_of empty_marine empty_weather) blank
    = (Failed IndexError, blank).
Proof.
  destruct (display_forecast_no_rows (table_of empty_marine empty_weather) blank
              stored_data) as (Hmid & Hshow & _).
  - split; [reflexivity|]. repeat constructor.
  - by split.
Defined.

Lemma failed_fetch_still_shows_summary_witness :
  ∃ s', after_startup world_marine_down demo_spots blank = (Done (), s')
        ∧ session s'
          = Some (DisplayData (Some (Text "Spot A")) demo_date None demo_answer).
Proof.
  eexists. split.
  - eapply (failed_fetch_still_shows_summary world_marine_down demo_spots blank
              (Text "Spot A") _ demo_lat demo_lon RequestException);
      reflexivity.
  - reflexivity.
Defined.

Lemma rerun_makes_no_request_witness :
  run world_idle (Some stored_data) = run world_idle_up (Some stored_data).
Proof. apply rerun_makes_no_request; reflexivity. Defined.

Lemma idle_script_only_draws_witness : only_draws (script world_idle).
Proof. apply idle_script_only_draws. reflexivity. Defined.
